(** * b1-service-layer: the session manager, the request facade and the
    pagination engine of [src/index.ts], as a shallow embedding.

    The class [ServiceLayer] keeps its session in mutable fields and talks to
    the outside through two capabilities: the clock ([dayjs()]) and the HTTP
    transport (an axios instance).  Both are modelled as an explicit world
    that the methods thread through, next to the client's own fields.  An
    exception keeps the state reached when it was thrown, as in JavaScript.

    Conventions of the model.
    - Values of type [any] are [JsVal]; numbers are integers (no fractions,
      no NaN inside a value: NaN only appears as the result [None] of a
      numeric coercion).
    - Instants are milliseconds since the epoch, as [dayjs] keeps them; the
      clock's own readings are taken as they come (a real clock stays within
      the range of [Date]), the dates computed from them are range-checked.
    - The network is a script: the answers of the Login endpoint and the
      answers of the other endpoints, each in the order of the calls, every
      answer with the time it takes; a call that finds its script empty gets
      no response.
    - One call runs at a time (the interleaving of concurrent calls is not
      modelled) and console output is left out.  *)

From Stdlib Require Import ZArith List String Ascii Bool Lia DecimalString.
Import ListNotations.
Local Open Scope string_scope.
Local Open Scope Z_scope.
#[local] Set Warnings "-register-all".

(** ** JavaScript values *)

Inductive JsVal : Type :=
| JUndefined
| JNull
| JBool (b : bool)
| JNum (n : Z)
| JStr (s : string)
| JArr (items : list JsVal)
| JObj (fields : list (string * JsVal)).

(** The decimal spelling of an integer, as a template literal prints it. *)
Definition string_of_Z (n : Z) : string := NilZero.string_of_int (Z.to_int n).

(** [String(v)], the conversion a template literal applies.  Numbers print
    in plain decimal (JavaScript turns to exponent notation from 1e21 on). *)
Fixpoint js_to_string (v : JsVal) : string :=
  match v with
  | JUndefined => "undefined"
  | JNull => "null"
  | JBool true => "true"
  | JBool false => "false"
  | JNum n => string_of_Z n
  | JStr s => s
  | JArr items =>
      (fix join (l : list JsVal) : string :=
         match l with
         | [] => ""
         | x :: rest =>
             let sx := match x with
                       | JUndefined | JNull => ""
                       | _ => js_to_string x
                       end in
             match rest with
             | [] => sx
             | _ :: _ => sx ++ "," ++ join rest
             end
         end) items
  | JObj _ => "[object Object]"
  end.

(** The number a string denotes, [None] for NaN.  Only the empty string and
    plain decimal integers with an optional minus sign are read; the other
    spellings JavaScript accepts (surrounding blanks, a plus sign, fractions,
    exponents, other radixes) do not denote integers of this model or are not
    covered, and come out as [None]. *)
Definition string_to_number (s : string) : option Z :=
  if String.eqb s "" then Some 0
  else option_map Z.of_int (NilZero.int_of_string s).

(** [Number(v)], [None] for NaN. *)
Definition js_to_number (v : JsVal) : option Z :=
  match v with
  | JUndefined => None
  | JNull => Some 0
  | JBool b => Some (if b then 1 else 0)
  | JNum n => Some n
  | JStr s => string_to_number s
  | JArr _ => string_to_number (js_to_string v)
  | JObj _ => None
  end.

(** [v - k] for an integer literal [k]. *)
Definition js_minus (v : JsVal) (k : Z) : option Z :=
  option_map (fun n => n - k) (js_to_number v).

(** Truthiness, as [if (v)] and [while (v)] test it. *)
Definition truthy (v : JsVal) : bool :=
  match v with
  | JUndefined | JNull => false
  | JBool b => b
  | JNum n => negb (n =? 0)
  | JStr s => negb (String.eqb s "")
  | JArr _ | JObj _ => true
  end.

(** A default parameter value [p = d]: it replaces [undefined] only. *)
Definition or_default (v d : JsVal) : JsVal :=
  match v with
  | JUndefined => d
  | _ => v
  end.

(** [result.concat(v)]: an array argument is spliced in, anything else is
    appended as one element. *)
Definition concat (result : list JsVal) (v : JsVal) : list JsVal :=
  match v with
  | JArr items => result ++ items
  | _ => result ++ [v]
  end.

Fixpoint lookup_field (key : string) (fields : list (string * JsVal)) : JsVal :=
  match fields with
  | [] => JUndefined
  | (k, v) :: rest => if String.eqb k key then v else lookup_field key rest
  end.

(** ** Time ([dayjs]) *)

Inductive Dayjs : Type :=
| Instant (ms : Z)
| InvalidDate.

Definition MILLISECONDS_A_MINUTE : Z := 60000.

(** The largest time value a [Date] holds: 8.64e15 milliseconds on either
    side of the epoch. *)
Definition MAX_TIME_VALUE : Z := 8640000000000000.

(** [new Date(ms)], as [dayjs] wraps it: a time value outside the range of
    [Date] gives an invalid date. *)
Definition dayjs_of_time (ms : Z) : Dayjs :=
  if (- MAX_TIME_VALUE <=? ms) && (ms <=? MAX_TIME_VALUE)
  then Instant ms
  else InvalidDate.

(** [d.add(n, 'minute')], where [n] is [None] for NaN: the new time value is
    [d]'s plus [n] times the milliseconds of a minute, wrapped in a new
    date. *)
Definition dayjs_add_minute (d : Dayjs) (n : option Z) : Dayjs :=
  match d, n with
  | Instant ms, Some k => dayjs_of_time (ms + k * MILLISECONDS_A_MINUTE)
  | _, _ => InvalidDate
  end.

(** [dayjs(that)] for a field that holds [null] ([None]) or a [Dayjs]. *)
Definition dayjs_of (that : option Dayjs) : Dayjs :=
  match that with
  | Some d => d
  | None => InvalidDate
  end.

(** [now.isAfter(that)]: a strict comparison of the two instants, false when
    [that] is not a valid date. *)
Definition isAfter (now : Z) (that : option Dayjs) : bool :=
  match dayjs_of that with
  | Instant ms => ms <? now
  | InvalidDate => false
  end.

(** ** Configuration *)

Record ConfigProp : Type := {
  port : Z;
  version : string;
  debug : bool;
  host : string;
  company : string;
  password : string;
  username : string
}.

(** The object a caller hands to [createSession]: any field may be left out
    (the source's own comment lists [{host, company, password, username}]). *)
Record ConfigArg : Type := {
  arg_port : option Z;
  arg_version : option string;
  arg_debug : option bool;
  arg_host : option string;
  arg_company : option string;
  arg_password : option string;
  arg_username : option string
}.

Definition spread_field {A : Type} (stored : A) (given : option A) : A :=
  match given with
  | Some a => a
  | None => stored
  end.

(** [{ ...this.config, ...config }] *)
Definition spread (stored : ConfigProp) (given : ConfigArg) : ConfigProp :=
  {| port := spread_field (port stored) (arg_port given);
     version := spread_field (version stored) (arg_version given);
     debug := spread_field (debug stored) (arg_debug given);
     host := spread_field (host stored) (arg_host given);
     company := spread_field (company stored) (arg_company given);
     password := spread_field (password stored) (arg_password given);
     username := spread_field (username stored) (arg_username given) |}.

(** A stored configuration passed back as an argument
    ([this.createSession(this.config)]). *)
Definition as_arg (c : ConfigProp) : ConfigArg :=
  {| arg_port := Some (port c);
     arg_version := Some (version c);
     arg_debug := Some (debug c);
     arg_host := Some (host c);
     arg_company := Some (company c);
     arg_password := Some (password c);
     arg_username := Some (username c) |}.

Definition with_host (c : ConfigProp) (h : string) : ConfigProp :=
  {| port := port c;
     version := version c;
     debug := debug c;
     host := h;
     company := company c;
     password := password c;
     username := username c |}.

(** [s.slice(-1)]: the last character, or the empty string. *)
Definition slice_last (s : string) : string :=
  substring (String.length s - 1) 1 s.

(** [s.substring(0, s.length - 1)] *)
Definition substring_but_last (s : string) : string :=
  substring 0 (String.length s - 1) s.

(** Lines 56-58: the host with one trailing slash taken off. *)
Definition normalize_host (h : string) : string :=
  if String.eqb (slice_last h) "/" then substring_but_last h else h.

(** ** The transport (axios) *)

Inductive Method : Type := GET | POST | PUT | PATCH.

(** What the instance's defaults contribute to a request. *)
Record Instance : Type := {
  baseURL : string;
  Cookie : option string
}.

Record Request : Type := {
  via : Instance;
  method : Method;
  url : JsVal;
  data : JsVal;
  options : JsVal
}.

(** A response; [body] is its [data] property (the name [data] is taken by
    the payload of a request). *)
Record Response : Type := {
  status : Z;
  body : JsVal
}.

(** A thrown value, read through the three properties [parseError] looks at.
    An axios error carries [request] and, when the server answered,
    [response]; any other error (a [TypeError]) carries its message only. *)
Record JsError : Type := {
  response : option Response;
  request : option Request;
  message : JsVal
}.

Inductive Result (A : Type) : Type :=
| Returned (a : A)
| Raised (e : JsError).
Arguments Returned {A} a.
Arguments Raised {A} e.

Definition TypeError (msg : string) : JsError :=
  {| response := None; request := None; message := JStr msg |}.

(** [v.key] and [v[key]] for the four property names the client reads
    ([SessionId], [SessionTimeout], [value], [@odata.nextLink]): none of them
    exists on a primitive or on an array, and reading any property of
    [undefined] or [null] throws. *)
Definition get_prop (v : JsVal) (key : string) : Result JsVal :=
  match v with
  | JUndefined =>
      Raised (TypeError ("Cannot read properties of undefined (reading '" ++ key ++ "')"))
  | JNull =>
      Raised (TypeError ("Cannot read properties of null (reading '" ++ key ++ "')"))
  | JObj fields => Returned (lookup_field key fields)
  | _ => Returned JUndefined
  end.

(** Lines 64-66. *)
Definition validateStatus (status : Z) : bool :=
  ((200 <=? status) && (status <? 300)) || (status =? 405).

(** What the network does with one request. *)
Inductive Outcome : Type :=
| Reply (status : Z) (body : JsVal)   (* a response arrived *)
| NoReply (msg : string)              (* the request went out, nothing came back *)
| NotSent (msg : string).             (* the request could not be set up *)

(** The error axios rejects with. *)
Definition axios_error (r : Request) (o : Outcome) : JsError :=
  match o with
  | Reply st b =>
      {| response := Some {| status := st; body := b |};
         request := Some r;
         message := JStr ("Request failed with status code " ++ string_of_Z st) |}
  | NoReply msg => {| response := None; request := Some r; message := JStr msg |}
  | NotSent msg => {| response := None; request := None; message := JStr msg |}
  end.

(** Whether axios rejects the promise. *)
Definition failing (o : Outcome) : bool :=
  match o with
  | Reply st _ => negb (validateStatus st)
  | NoReply _ | NotSent _ => true
  end.

(** axios settles the promise: it resolves when a response arrived whose
    status [validateStatus] accepts and rejects otherwise. *)
Definition settle (r : Request) (o : Outcome) : Result Response :=
  match o with
  | Reply st b =>
      if validateStatus st then Returned {| status := st; body := b |}
      else Raised (axios_error r o)
  | _ => Raised (axios_error r o)
  end.

(** ** The world and the client *)

(** One scripted answer of the network, with the time the call takes. *)
Record Arrival : Type := {
  delay : Z;
  outcome : Outcome
}.

(** The world: the clock, the answers the Login endpoint will give, the
    answers every other endpoint will give (each list in the order of the
    calls), and the requests issued so far, oldest first. *)
Record World : Type := {
  now : Z;
  logins : list Arrival;
  replies : list Arrival;
  sent : list Request
}.

(** The fields of [ServiceLayer]. *)
Record Client : Type := {
  instance : option Instance;
  sessionTimeout : JsVal;
  startSessionTime : option Dayjs;
  endSessionTime : option Dayjs;
  config : ConfigProp
}.

Record State : Type := {
  client : Client;
  world : World
}.

(** Lines 33-43: the constructor. *)
Definition new_ServiceLayer : Client :=
  {| instance := None;
     sessionTimeout := JNum 0;
     startSessionTime := None;
     endSessionTime := None;
     config := {| port := 80;
                  version := "v2";
                  debug := false;
                  host := "http://localhost";
                  company := "";
                  password := "";
                  username := "" |} |}.

(** ** Computations: state passing with exceptions *)

Definition M (A : Type) : Type := State -> Result A * State.

Definition ret {A : Type} (a : A) : M A := fun s => (Returned a, s).

Definition throw {A : Type} (e : JsError) : M A := fun s => (Raised e, s).

Definition bind {A B : Type} (m : M A) (k : A -> M B) : M B :=
  fun s =>
    match m s with
    | (Returned a, s1) => k a s1
    | (Raised e, s1) => (Raised e, s1)
    end.

(** [try { m } catch (error) { h(error) }] *)
Definition try_catch {A : Type} (m : M A) (h : JsError -> M A) : M A :=
  fun s =>
    match m s with
    | (Returned a, s1) => (Returned a, s1)
    | (Raised e, s1) => h e s1
    end.

Definition lift {A : Type} (r : Result A) : M A := fun s => (r, s).

Declare Scope js_scope.
Delimit Scope js_scope with js.
Notation "x <- c ;; k" := (bind c (fun x => k))
  (at level 61, c at next level, right associativity) : js_scope.
Notation "c ;; k" := (bind c (fun _ => k))
  (at level 61, right associativity) : js_scope.
Local Open Scope js_scope.

(** [this] *)
Definition this : M Client := fun s => (Returned (client s), s).

Definition update (f : Client -> Client) : M unit :=
  fun s => (Returned tt, {| client := f (client s); world := world s |}).

Definition set_instance (i : option Instance) (c : Client) : Client :=
  {| instance := i;
     sessionTimeout := sessionTimeout c;
     startSessionTime := startSessionTime c;
     endSessionTime := endSessionTime c;
     config := config c |}.

Definition set_sessionTimeout (v : JsVal) (c : Client) : Client :=
  {| instance := instance c;
     sessionTimeout := v;
     startSessionTime := startSessionTime c;
     endSessionTime := endSessionTime c;
     config := config c |}.

Definition set_startSessionTime (d : option Dayjs) (c : Client) : Client :=
  {| instance := instance c;
     sessionTimeout := sessionTimeout c;
     startSessionTime := d;
     endSessionTime := endSessionTime c;
     config := config c |}.

Definition set_endSessionTime (d : option Dayjs) (c : Client) : Client :=
  {| instance := instance c;
     sessionTimeout := sessionTimeout c;
     startSessionTime := startSessionTime c;
     endSessionTime := d;
     config := config c |}.

Definition set_config (cfg : ConfigProp) (c : Client) : Client :=
  {| instance := instance c;
     sessionTimeout := sessionTimeout c;
     startSessionTime := startSessionTime c;
     endSessionTime := endSessionTime c;
     config := cfg |}.

(** [dayjs()]: the clock is read. *)
Definition dayjs : M Z := fun s => (Returned (now (world s)), s).

(** The Login endpoint is the target of [instance.post('Login', ...)]. *)
Definition is_login (r : Request) : bool :=
  match method r, url r with
  | POST, JStr u => String.eqb u "Login"
  | _, _ => false
  end.

(** The network receives a request: it is recorded, the next scripted answer
    of its endpoint is taken and the clock moves on by the answer's delay.
    When the script has no answer left, nothing comes back. *)
Definition serve (r : Request) (w : World) : Outcome * World :=
  if is_login r then
    match logins w with
    | a :: rest =>
        (outcome a,
         {| now := now w + delay a; logins := rest;
            replies := replies w; sent := sent w ++ [r] |})
    | [] =>
        (NoReply "Network Error",
         {| now := now w; logins := [];
            replies := replies w; sent := sent w ++ [r] |})
    end
  else
    match replies w with
    | a :: rest =>
        (outcome a,
         {| now := now w + delay a; logins := logins w;
            replies := rest; sent := sent w ++ [r] |})
    | [] =>
        (NoReply "Network Error",
         {| now := now w; logins := logins w;
            replies := []; sent := sent w ++ [r] |})
    end.

(** [await instance.<verb>(...)] *)
Definition axios_request (r : Request) : M Response :=
  fun s =>
    let (o, w) := serve r (world s) in
    (settle r o, {| client := client s; world := w |}).

(** Lines 60-72: [axios.create]; the new instance has no cookie yet. *)
Definition axios_create (cfg : ConfigProp) : Instance :=
  {| baseURL := host cfg ++ ":" ++ string_of_Z (port cfg) ++ "/b1s/" ++ version cfg ++ "/";
     Cookie := None |}.

(** [this.instance], about to be used for [.verb]: [null] has no property. *)
Definition this_instance (verb : string) : M Instance :=
  c <- this ;;
  match instance c with
  | Some i => ret i
  | None => throw (TypeError ("Cannot read properties of null (reading '" ++ verb ++ "')"))
  end.

(** ** The methods of [ServiceLayer] *)

Definition login_body (cfg : ConfigProp) : JsVal :=
  JObj [("CompanyDB", JStr (company cfg));
        ("Password", JStr (password cfg));
        ("UserName", JStr (username cfg))].

Definition login_request (cfg : ConfigProp) : Request :=
  {| via := axios_create cfg;
     method := POST;
     url := JStr "Login";
     data := login_body cfg;
     options := JUndefined |}.

(** Lines 49-93. *)
Definition createSession (given : ConfigArg) : M unit :=
  c <- this ;;
  let cfg := spread (config c) given in
  update (set_config cfg) ;;
  let cfg := with_host cfg (normalize_host (host cfg)) in
  update (set_config cfg) ;;
  update (set_instance (Some (axios_create cfg))) ;;
  result <- axios_request (login_request cfg) ;;
  i <- this_instance "defaults" ;;
  session_id <- lift (get_prop (body result) "SessionId") ;;
  update (set_instance
            (Some {| baseURL := baseURL i;
                     Cookie := Some ("B1SESSION=" ++ js_to_string session_id
                                     ++ ";CompanyDB=" ++ company cfg) |})) ;;
  timeout <- lift (get_prop (body result) "SessionTimeout") ;;
  update (set_sessionTimeout timeout) ;;
  t <- dayjs ;;
  update (set_startSessionTime (Some (Instant t))) ;;
  c <- this ;;
  update (set_endSessionTime
            (Some (dayjs_add_minute (dayjs_of (startSessionTime c))
                                    (js_minus (sessionTimeout c) 1)))).

(** Lines 98-106. *)
Definition refreshSession : M unit :=
  t <- dayjs ;;
  c <- this ;;
  if isAfter t (endSessionTime c)
  then createSession (as_arg (config c))
  else ret tt.

(** Lines 114-118.  [q] is declared a string; [find] also passes it whatever
    the server sent as [@odata.nextLink]. *)
Definition query (q : JsVal) (options : JsVal) : M JsVal :=
  let options := or_default options (JObj []) in
  refreshSession ;;
  i <- this_instance "get" ;;
  result <- axios_request
              {| via := i; method := GET; url := q; data := JUndefined; options := options |} ;;
  ret (body result).

(** Lines 208-225.  In the first branch [request.path] is read for the
    console, which throws when the error has no [request]. *)
Definition parseError (e : JsError) : M JsVal :=
  match response e with
  | Some r =>
      match request e with
      | Some _ => ret (JObj [("error", JBool true); ("message", body r)])
      | None => throw (TypeError "Cannot read properties of undefined (reading 'path')")
      end
  | None =>
      match request e with
      | Some _ => ret (JObj [("error", JBool true); ("message", JStr "ERROR REQUEST")])
      | None => ret (JObj [("error", JBool true); ("message", message e)])
      end
  end.

(** Lines 152-160. *)
Definition get (resource : JsVal) (options : JsVal) : M JsVal :=
  let options := or_default options (JObj []) in
  try_catch
    (refreshSession ;;
     i <- this_instance "get" ;;
     result <- axios_request
                 {| via := i; method := GET; url := resource;
                    data := JUndefined; options := options |} ;;
     ret (body result))
    parseError.

(** Lines 168-176. *)
Definition put (resource : JsVal) (payload : JsVal) : M JsVal :=
  try_catch
    (refreshSession ;;
     i <- this_instance "put" ;;
     result <- axios_request
                 {| via := i; method := PUT; url := resource;
                    data := payload; options := JUndefined |} ;;
     ret (body result))
    parseError.

(** Lines 181-189. *)
Definition patch (resource : JsVal) (payload : JsVal) : M JsVal :=
  try_catch
    (refreshSession ;;
     i <- this_instance "patch" ;;
     result <- axios_request
                 {| via := i; method := PATCH; url := resource;
                    data := payload; options := JUndefined |} ;;
     ret (body result))
    parseError.

(** Lines 194-202. *)
Definition post (resource : JsVal) (payload : JsVal) : M JsVal :=
  try_catch
    (refreshSession ;;
     i <- this_instance "post" ;;
     result <- axios_request
                 {| via := i; method := POST; url := resource;
                    data := payload; options := JUndefined |} ;;
     ret (body result))
    parseError.

(** Lines 135-136 and 139-140: one follow-up page is fetched and its [value]
    is appended. *)
Definition next_page (link options : JsVal) (result : list JsVal)
  : M (JsVal * list JsVal) :=
  request <- query link options ;;
  value <- lift (get_prop request "value") ;;
  ret (request, concat result value).

(** A computation with a loop: [None] when the fuel runs out first. *)
Definition Loop (A : Type) : Type := State -> option (Result A * State).

(** Lines 138-141: [while (request['@odata.nextLink']) { ... }], one unit of
    fuel for each test of the condition. *)
Fixpoint find_while (fuel : nat) (options request : JsVal) (result : list JsVal)
  : Loop (list JsVal) :=
  fun s =>
    match fuel with
    | O => None
    | S fuel' =>
        match get_prop request "@odata.nextLink" with
        | Raised e => Some (Raised e, s)
        | Returned link =>
            if truthy link then
              match next_page link options result s with
              | (Returned (request', result'), s1) =>
                  find_while fuel' options request' result' s1
              | (Raised e, s1) => Some (Raised e, s1)
              end
            else Some (Returned result, s)
        end
    end.

(** Lines 127-144, the loop with [fuel] units of fuel.  The first page is
    asked for with [this.query(query)]: no second argument. *)
Definition find_fuel (fuel : nat) (q : JsVal) (options : JsVal) : Loop (list JsVal) :=
  fun s =>
    let options := or_default options (JObj []) in
    match (refreshSession ;;
           request <- query q JUndefined ;;
           value <- lift (get_prop request "value") ;;
           ret (request, concat [] value)) s with
    | (Raised e, s1) => Some (Raised e, s1)
    | (Returned (request, result), s1) =>
        match get_prop request "@odata.nextLink" with
        | Raised e => Some (Raised e, s1)
        | Returned link =>
            if truthy link then
              match next_page link options result s1 with
              | (Returned (request', result'), s2) =>
                  find_while fuel options request' result' s2
              | (Raised e, s2) => Some (Raised e, s2)
              end
            else Some (Returned result, s1)
        end
    end.

(** [find]: every page that is fetched takes one scripted answer, so one more
    unit of fuel than there are answers is enough for the loop to end
    ([find_fuel_enough] below). *)
Definition find (q : JsVal) (options : JsVal) : Loop (list JsVal) :=
  fun s => find_fuel (S (List.length (replies (world s)))) q options s.

(** ** Vocabulary of the statements *)

(** The configuration [createSession] stores: the given fields spread over
    the stored ones, the host normalized. *)
Definition normalized (stored : ConfigProp) (given : ConfigArg) : ConfigProp :=
  let cfg := spread stored given in
  with_host cfg (normalize_host (host cfg)).

(** The outcome the next call of the Login endpoint will have, and the one
    the next call of any other endpoint will have. *)
Definition next_login (w : World) : Outcome :=
  match logins w with
  | a :: _ => outcome a
  | [] => NoReply "Network Error"
  end.

Definition next_reply (w : World) : Outcome :=
  match replies w with
  | a :: _ => outcome a
  | [] => NoReply "Network Error"
  end.

(** The client between line 72 and the answer to the login request: the
    configuration and a fresh instance are in place, the session fields are
    the old ones. *)
Definition logging_in (c : Client) (cfg : ConfigProp) : Client :=
  {| instance := Some (axios_create cfg);
     sessionTimeout := sessionTimeout c;
     startSessionTime := startSessionTime c;
     endSessionTime := endSessionTime c;
     config := cfg |}.

(** The client after a login that returned [sid] and [timeout] and was
    answered at instant [t]. *)
Definition logged_in (cfg : ConfigProp) (sid timeout : JsVal) (t : Z) : Client :=
  {| instance :=
       Some {| baseURL := baseURL (axios_create cfg);
               Cookie := Some ("B1SESSION=" ++ js_to_string sid
                               ++ ";CompanyDB=" ++ company cfg) |};
     sessionTimeout := timeout;
     startSessionTime := Some (Instant t);
     endSessionTime := Some (dayjs_add_minute (Instant t) (js_minus timeout 1));
     config := cfg |}.

(** The tagged result of [parseError]. *)
Definition tagged (m : JsVal) : JsVal :=
  JObj [("error", JBool true); ("message", m)].

(** The message [parseError] gives for each shape of transport failure. *)
Definition failure_message (o : Outcome) : JsVal :=
  match o with
  | Reply _ b => b
  | NoReply _ => JStr "ERROR REQUEST"
  | NotSent msg => JStr msg
  end.

(** The requests of a state's log that went to the Login endpoint, and the
    others. *)
Definition login_log (s : State) : list Request :=
  filter is_login (sent (world s)).

Definition fetch_log (s : State) : list Request :=
  filter (fun r => negb (is_login r)) (sent (world s)).

(** The outcome the network has in store for [r]. *)
Definition answer (r : Request) (w : World) : Outcome := fst (serve r w).

(** The state after [r] was sent from [s]. *)
Definition served (r : Request) (s : State) : State :=
  {| client := client s; world := snd (serve r (world s)) |}.

(** A call of one of the four methods of the request facade. *)
Inductive Facade : Type :=
| Get (resource options : JsVal)
| Put (resource payload : JsVal)
| Patch (resource payload : JsVal)
| Post (resource payload : JsVal).

Definition run (f : Facade) : M JsVal :=
  match f with
  | Get resource options => get resource options
  | Put resource payload => put resource payload
  | Patch resource payload => patch resource payload
  | Post resource payload => post resource payload
  end.

(** The request a facade call hands to the instance [i]. *)
Definition facade_request (f : Facade) (i : Instance) : Request :=
  match f with
  | Get resource options =>
      {| via := i; method := GET; url := resource;
         data := JUndefined; options := or_default options (JObj []) |}
  | Put resource payload =>
      {| via := i; method := PUT; url := resource;
         data := payload; options := JUndefined |}
  | Patch resource payload =>
      {| via := i; method := PATCH; url := resource;
         data := payload; options := JUndefined |}
  | Post resource payload =>
      {| via := i; method := POST; url := resource;
         data := payload; options := JUndefined |}
  end.

(** The property of the instance a facade call uses. *)
Definition verb_name (f : Facade) : string :=
  match f with
  | Get _ _ => "get"
  | Put _ _ => "put"
  | Patch _ _ => "patch"
  | Post _ _ => "post"
  end.


(** The request [query] hands to the instance [i]. *)
Definition query_request (i : Instance) (q options : JsVal) : Request :=
  {| via := i; method := GET; url := q;
     data := JUndefined; options := or_default options (JObj []) |}.

(** An error that has a [request] whenever it has a [response], as every
    axios error and every [TypeError] does. *)
Definition well_formed_error (e : JsError) : Prop :=
  response e = None \/ request e <> None.

(** [follows options b s pages b' s']: starting from a page [b] received in
    state [s], the successive calls [query link options], each on the
    [@odata.nextLink] of the page before, returned pages whose [value] arrays
    are [pages], the last of them being [b'], received in state [s']. *)
Inductive follows (options : JsVal)
  : JsVal -> State -> list (list JsVal) -> JsVal -> State -> Prop :=
| follows_nil (b : JsVal) (s : State) : follows options b s [] b s
| follows_cons (b : JsVal) (s : State) (link b1 : JsVal) (items : list JsVal)
    (s1 : State) (rest : list (list JsVal)) (b2 : JsVal) (s2 : State) :
    get_prop b "@odata.nextLink" = Returned link ->
    truthy link = true ->
    query link options s = (Returned b1, s1) ->
    get_prop b1 "value" = Returned (JArr items) ->
    follows options b1 s1 rest b2 s2 ->
    follows options b s (items :: rest) b2 s2.

(** A page that ends the walk: its [@odata.nextLink] is absent (or falsy). *)
Definition last_page (b : JsVal) : Prop :=
  exists link, get_prop b "@odata.nextLink" = Returned link /\ truthy link = false.

(** The options of the page fetches [find] issued: the first request went
    out with the empty default, every later one with the caller's options. *)
Definition fetch_options (q caller_opts : JsVal) (l : list Request) : Prop :=
  match l with
  | [] => True
  | first :: followups =>
      (method first = GET /\ url first = q /\ options first = JObj []) /\
      Forall (fun r => method r = GET /\
                       options r = or_default caller_opts (JObj []))
             followups
  end.

(** ** A worked scenario

    A session is created at instant [T0] with a server timeout of 30 minutes,
    so that it expires at [T0] plus 29 minutes. *)

Definition T0 : Z := 1000000.

Definition minutes (n : Z) : Z := n * MILLISECONDS_A_MINUTE.

Definition sap_config : ConfigArg :=
  {| arg_port := Some 50000;
     arg_version := None;
     arg_debug := None;
     arg_host := Some "https://sap.example/";
     arg_company := Some "SBODEMO";
     arg_password := Some "secret";
     arg_username := Some "manager" |}.

Definition login_answer (sid : string) (timeout : Z) : Arrival :=
  {| delay := 250;
     outcome := Reply 200 (JObj [("SessionId", JStr sid);
                                 ("SessionTimeout", JNum timeout)]) |}.

Definition login_refused : Arrival :=
  {| delay := 250;
     outcome := Reply 401 (JObj [("error", JStr "Invalid login credential")]) |}.

Definition page_answer (st : Z) (items : list JsVal) (link : JsVal) : Arrival :=
  {| delay := 40;
     outcome := Reply st (JObj [("value", JArr items); ("@odata.nextLink", link)]) |}.

Definition last_page_answer (items : list JsVal) : Arrival :=
  {| delay := 40; outcome := Reply 200 (JObj [("value", JArr items)]) |}.

Definition before_login : State :=
  {| client := new_ServiceLayer;
     world := {| now := T0 - 250; logins := [login_answer "s1" 30];
                 replies := []; sent := [] |} |}.

(** The client of the scenario, as [createSession] leaves it. *)
Definition sap_session : Client :=
  client (snd (createSession sap_config before_login)).

(** The scenario's client at instant [t], facing the given answers. *)
Definition at_instant (t : Z) (ls rs : list Arrival) : State :=
  {| client := sap_session;
     world := {| now := t; logins := ls; replies := rs; sent := [] |} |}.

Definition caller_options : JsVal := JObj [("timeout", JNum 5000)].

Definition three_pages : list Arrival :=
  [page_answer 200 [JNum 1; JNum 2] (JStr "Orders?$skip=2");
   page_answer 200 [JNum 3; JNum 2] (JStr "Orders?$skip=4");
   last_page_answer [JNum 5]].

(** The scenario one minute before the session expires, at the very instant
    it expires, and one minute after. *)
Definition before_expiry : State :=
  at_instant (T0 + minutes 28) [login_answer "s2" 30] [].

Definition at_expiry : State :=
  at_instant (T0 + minutes 29) [login_answer "s2" 30] [].

Definition after_expiry : State :=
  at_instant (T0 + minutes 30) [login_answer "s2" 30] [].

(** An expired session whose re-login the server refuses. *)
Definition expired_refused : State :=
  at_instant (T0 + minutes 30) [login_refused] [last_page_answer [JNum 1]].

(** A valid session in front of a chain of three pages, of one page, of a
    405 answer, of a page followed by a server error, and of no answer. *)
Definition paging : State := at_instant (T0 + minutes 5) [] three_pages.

Definition one_page : State :=
  at_instant (T0 + minutes 5) [] [last_page_answer [JNum 7; JNum 7]].

Definition method_not_allowed : State :=
  at_instant (T0 + minutes 5) []
    [{| delay := 40; outcome := Reply 405 (JStr "") |}].

Definition failing_second_page : State :=
  at_instant (T0 + minutes 5) []
    [page_answer 200 [JNum 1] (JStr "Orders?$skip=1");
     {| delay := 40; outcome := Reply 500 (JStr "Internal Server Error") |}].

Definition silent_network : State := at_instant (T0 + minutes 5) [] [].

(** The same configuration object with another [host]. *)
Definition with_arg_host (given : ConfigArg) (h : string) : ConfigArg :=
  {| arg_port := arg_port given;
     arg_version := arg_version given;
     arg_debug := arg_debug given;
     arg_host := Some h;
     arg_company := arg_company given;
     arg_password := arg_password given;
     arg_username := arg_username given |}.

(** The session fields of a client: what a login replaces. *)
Definition session_fields (c : Client) : JsVal * option Dayjs * option Dayjs :=
  (sessionTimeout c, startSessionTime c, endSessionTime c).

(** Further states of the scenario: a configuration object with no field at
    all, a fresh client in front of a login answered 405 with an empty body,
    of a login answered with a [null] body, of a login with a timeout of one
    minute; a host given with two trailing slashes; an expired session whose
    re-login and request both succeed; a valid session in front of an answer
    without content, of an object without [value], of a [null] body. *)
Definition empty_config : ConfigArg :=
  {| arg_port := None; arg_version := None; arg_debug := None; arg_host := None;
     arg_company := None; arg_password := None; arg_username := None |}.

Definition fresh (ls : list Arrival) : State :=
  {| client := new_ServiceLayer;
     world := {| now := T0 - 250; logins := ls; replies := []; sent := [] |} |}.

Definition login_405 : State :=
  fresh [{| delay := 250; outcome := Reply 405 (JStr "") |}].

Definition login_null : State :=
  fresh [{| delay := 250; outcome := Reply 200 JNull |}].

Definition login_one_minute : State := fresh [login_answer "s1" 1].

(** A login whose timeout, in minutes, reaches beyond the range of [Date]. *)
Definition login_beyond_range : State := fresh [login_answer "s1" 200000000000].

Definition double_slash_expired : State :=
  {| client := client (snd (createSession
                              (with_arg_host sap_config "https://sap.example//")
                              before_login));
     world := {| now := T0 + minutes 30; logins := [login_answer "s2" 30];
                 replies := []; sent := [] |} |}.

Definition expired_served : State :=
  at_instant (T0 + minutes 30) [login_answer "s2" 30] [last_page_answer [JNum 1]].

Definition no_content : State :=
  at_instant (T0 + minutes 5) [] [{| delay := 40; outcome := Reply 204 (JStr "") |}].

Definition single_entity : State :=
  at_instant (T0 + minutes 5) []
    [{| delay := 40; outcome := Reply 200 (JObj [("DocEntry", JNum 10)]) |}].

Definition null_body : State :=
  at_instant (T0 + minutes 5) [] [{| delay := 40; outcome := Reply 200 JNull |}].

(** * Properties *)

Ltac run_step :=
  cbn -[serve settle login_request normalize_host get_prop js_to_string
        axios_create String.append isAfter createSession refreshSession query].

Lemma is_login_login_request cfg : is_login (login_request cfg) = true.
Proof. reflexivity. Qed.

Lemma createSession_eq given s :
  createSession given s =
  let cfg := normalized (config (client s)) given in
  let r := login_request cfg in
  let w := snd (serve r (world s)) in
  match settle r (fst (serve r (world s))) with
  | Raised e => (Raised e, {| client := logging_in (client s) cfg; world := w |})
  | Returned res =>
      match get_prop (body res) "SessionId", get_prop (body res) "SessionTimeout" with
      | Returned sid, Returned timeout =>
          (Returned tt, {| client := logged_in cfg sid timeout (now w); world := w |})
      | Raised e, _ =>
          (Raised e, {| client := logging_in (client s) cfg; world := w |})
      | Returned sid, Raised e =>
          (Raised e,
           {| client := set_instance (instance (logged_in cfg sid JUndefined 0))
                          (logging_in (client s) cfg);
              world := w |})
      end
  end.
Proof.
  unfold createSession, bind, this, update, axios_request, this_instance, lift, dayjs, ret, throw.
  run_step. fold (normalized (config (client s)) given).
  destruct (serve _ _) as [o w]. run_step.
  destruct (settle _ o) as [res|e]; run_step; [|reflexivity].
  destruct (get_prop (body res) "SessionId") as [sid|e]; run_step; [|reflexivity].
  destruct (get_prop (body res) "SessionTimeout"); reflexivity.
Qed.

(** ** The network *)

Lemma serve_sent r w : sent (snd (serve r w)) = (sent w ++ [r])%list.
Proof.
  unfold serve.
  destruct (is_login r); [destruct (logins w)|destruct (replies w)]; reflexivity.
Qed.

Lemma serve_login r w :
  is_login r = true ->
  fst (serve r w) = next_login w /\
  replies (snd (serve r w)) = replies w /\
  logins (snd (serve r w)) = tl (logins w).
Proof.
  intros H. unfold serve, next_login. rewrite H.
  destruct (logins w); repeat split.
Qed.

Lemma serve_fetch r w :
  is_login r = false ->
  fst (serve r w) = next_reply w /\
  replies (snd (serve r w)) = tl (replies w) /\
  logins (snd (serve r w)) = logins w.
Proof.
  intros H. unfold serve, next_reply. rewrite H.
  destruct (replies w); repeat split.
Qed.

Lemma settle_returned r o res :
  settle r o = Returned res ->
  failing o = false /\ exists st, o = Reply st (body res) /\ status res = st.
Proof.
  destruct o as [st b|m|m]; cbn; try discriminate.
  destruct (validateStatus st); [|discriminate].
  intros H. injection H as <-. split; [reflexivity|]. now exists st.
Qed.

Lemma settle_raised r o e :
  settle r o = Raised e -> failing o = true /\ e = axios_error r o.
Proof.
  destruct o as [st b|m|m]; cbn.
  - destruct (validateStatus st); [discriminate|].
    intros H. injection H as <-. now split.
  - intros H. injection H as <-. now split.
  - intros H. injection H as <-. now split.
Qed.

Lemma settle_failing r o :
  failing o = true -> settle r o = Raised (axios_error r o).
Proof.
  destruct o as [st b|m|m]; cbn; try reflexivity.
  destruct (validateStatus st); [discriminate|reflexivity].
Qed.

Lemma settle_reply r st b :
  validateStatus st = true ->
  settle r (Reply st b) = Returned {| status := st; body := b |}.
Proof. intros H. cbn. now rewrite H. Qed.

Lemma validateStatus_spec st :
  validateStatus st = true <-> (200 <= st < 300 \/ st = 405).
Proof. unfold validateStatus. lia. Qed.

(** ** Errors and [parseError] *)

Lemma axios_error_well_formed r o : well_formed_error (axios_error r o).
Proof. destruct o; [right|right|left]; cbn; congruence. Qed.

Lemma TypeError_well_formed msg : well_formed_error (TypeError msg).
Proof. now left. Qed.

Lemma get_prop_raised_well_formed v key e :
  get_prop v key = Raised e -> well_formed_error e.
Proof.
  destruct v; cbn; try discriminate;
    intros H; injection H as <-; apply TypeError_well_formed.
Qed.

Lemma parseError_axios_error r o s :
  parseError (axios_error r o) s = (Returned (tagged (failure_message o)), s).
Proof. destruct o; reflexivity. Qed.

Lemma parseError_TypeError msg s :
  parseError (TypeError msg) s = (Returned (tagged (JStr msg)), s).
Proof. reflexivity. Qed.

Lemma parseError_well_formed e s :
  well_formed_error e -> exists v, parseError e s = (Returned v, s).
Proof.
  unfold parseError, well_formed_error.
  destruct (response e) as [r|], (request e) as [q|]; intros [H|H];
    try discriminate; try congruence; eexists; reflexivity.
Qed.

(** ** [createSession] and [refreshSession] *)

Lemma createSession_world given s :
  world (snd (createSession given s)) =
  snd (serve (login_request (normalized (config (client s)) given)) (world s)).
Proof.
  rewrite createSession_eq. cbv zeta.
  destruct (settle _ _) as [res|e]; [|reflexivity].
  destruct (get_prop _ "SessionId"); [|reflexivity].
  destruct (get_prop _ "SessionTimeout"); reflexivity.
Qed.

Lemma createSession_raised given s e s' :
  createSession given s = (Raised e, s') -> well_formed_error e.
Proof.
  rewrite createSession_eq. cbv zeta.
  destruct (settle _ _) as [res|e0] eqn:Hs.
  - destruct (get_prop _ "SessionId") eqn:H1.
    + destruct (get_prop _ "SessionTimeout") eqn:H2; [discriminate|].
      intros H. injection H as <- _. eapply get_prop_raised_well_formed; eauto.
    + intros H. injection H as <- _. eapply get_prop_raised_well_formed; eauto.
  - intros H. injection H as <- _.
    apply settle_raised in Hs as [_ ->]. apply axios_error_well_formed.
Qed.

Lemma createSession_failing given s :
  failing (next_login (world s)) = true ->
  let cfg := normalized (config (client s)) given in
  createSession given s =
  (Raised (axios_error (login_request cfg) (next_login (world s))),
   {| client := logging_in (client s) cfg;
      world := snd (serve (login_request cfg) (world s)) |}).
Proof.
  intros H cfg. rewrite createSession_eq. cbv zeta. fold cfg.
  destruct (serve_login (login_request cfg) (world s) eq_refl) as [-> _].
  now rewrite settle_failing.
Qed.

Lemma createSession_succeeds given s a rest st b sid timeout :
  logins (world s) = a :: rest ->
  outcome a = Reply st b ->
  validateStatus st = true ->
  get_prop b "SessionId" = Returned sid ->
  get_prop b "SessionTimeout" = Returned timeout ->
  let cfg := normalized (config (client s)) given in
  createSession given s =
  (Returned tt,
   {| client := logged_in cfg sid timeout (now (world s) + delay a);
      world := {| now := now (world s) + delay a;
                  logins := rest;
                  replies := replies (world s);
                  sent := (sent (world s) ++ [login_request cfg])%list |} |}).
Proof.
  intros Hl Ho Hv Hsid Ht cfg. rewrite createSession_eq. cbv zeta. fold cfg.
  unfold serve. rewrite is_login_login_request, Hl. cbn [fst snd].
  rewrite Ho, settle_reply by exact Hv. cbn [body].
  now rewrite Hsid, Ht.
Qed.

Lemma refreshSession_eq s :
  refreshSession s =
  if isAfter (now (world s)) (endSessionTime (client s))
  then createSession (as_arg (config (client s))) s
  else (Returned tt, s).
Proof.
  unfold refreshSession, bind, dayjs, this. cbn [fst snd].
  destruct (isAfter _ _); reflexivity.
Qed.

Lemma refreshSession_raised s e s' :
  refreshSession s = (Raised e, s') -> well_formed_error e.
Proof.
  rewrite refreshSession_eq. destruct (isAfter _ _); [|discriminate].
  apply createSession_raised.
Qed.

Lemma refreshSession_world s :
  exists l,
    sent (world (snd (refreshSession s))) = (sent (world s) ++ l)%list /\
    forallb is_login l = true /\
    (List.length l <= 1)%nat /\
    replies (world (snd (refreshSession s))) = replies (world s).
Proof.
  rewrite refreshSession_eq. destruct (isAfter _ _).
  - rewrite createSession_world.
    exists [login_request (normalized (config (client s)) (as_arg (config (client s))))].
    rewrite serve_sent.
    destruct (serve_login (login_request (normalized (config (client s)) (as_arg (config (client s))))) (world s) eq_refl) as (_ & -> & _).
    repeat split. cbn. lia.
  - exists []. cbn. rewrite app_nil_r. repeat split. lia.
Qed.

(** ** [query] and the request facade *)

Lemma query_eq q o s :
  query q o s =
  match refreshSession s with
  | (Raised e, s1) => (Raised e, s1)
  | (Returned _, s1) =>
      match instance (client s1) with
      | None =>
          (Raised (TypeError "Cannot read properties of null (reading 'get')"), s1)
      | Some i =>
          let r := query_request i q o in
          match settle r (fst (serve r (world s1))) with
          | Returned res => (Returned (body res), served r s1)
          | Raised e => (Raised e, served r s1)
          end
      end
  end.
Proof.
  unfold query, bind. destruct (refreshSession s) as [[[]|e] s1]; [|reflexivity].
  unfold this_instance, bind, this, axios_request, ret, throw, served.
  destruct (instance (client s1)) as [i|]; [|reflexivity].
  fold (query_request i q o). cbv zeta.
  destruct (serve _ _) as [out w]. cbn [fst snd].
  destruct (settle _ out); reflexivity.
Qed.

Lemma run_eq f s :
  run f s =
  match refreshSession s with
  | (Raised e, s1) => parseError e s1
  | (Returned _, s1) =>
      match instance (client s1) with
      | None =>
          parseError
            (TypeError ("Cannot read properties of null (reading '" ++ verb_name f ++ "')"))
            s1
      | Some i =>
          let r := facade_request f i in
          match settle r (fst (serve r (world s1))) with
          | Returned res => (Returned (body res), served r s1)
          | Raised e => parseError e (served r s1)
          end
      end
  end.
Proof.
  destruct f; unfold run, get, put, patch, post, try_catch, bind;
    (destruct (refreshSession s) as [[[]|e] s1]; [|reflexivity]);
    unfold this_instance, bind, this, axios_request, ret, throw, served;
    (destruct (instance (client s1)) as [i|]; [|reflexivity]);
    cbn [facade_request verb_name]; cbv zeta;
    destruct (serve _ _) as [out w]; cbn [fst snd];
    destruct (settle _ out); reflexivity.
Qed.

Lemma is_login_query_request i q o : is_login (query_request i q o) = false.
Proof. reflexivity. Qed.

Lemma fetch_log_served r s :
  fetch_log (served r s) =
  (fetch_log s ++ (if is_login r then [] else [r]))%list.
Proof.
  unfold fetch_log, served. cbn [world]. rewrite serve_sent, filter_app. cbn.
  destruct (is_login r); reflexivity.
Qed.

Lemma filter_none {A : Type} (f : A -> bool) (l : list A) :
  forallb f l = true -> filter (fun x => negb (f x)) l = [].
Proof.
  induction l as [|x l IH]; cbn; [reflexivity|].
  destruct (f x); cbn; [exact IH|discriminate].
Qed.

Lemma fetch_log_refreshSession s :
  fetch_log (snd (refreshSession s)) = fetch_log s.
Proof.
  destruct (refreshSession_world s) as (l & Hs & Hl & _ & _).
  unfold fetch_log. rewrite Hs, filter_app, (filter_none _ _ Hl).
  apply app_nil_r.
Qed.

(** A call of [query] that returns took one scripted answer and issued one
    request besides the login it may have needed. *)
Lemma query_returned q o s b s' :
  query q o s = (Returned b, s') ->
  exists s1 i a,
    refreshSession s = (Returned tt, s1) /\
    instance (client s1) = Some i /\
    s' = served (query_request i q o) s1 /\
    replies (world s) = a :: replies (world s') /\
    fetch_log s' = (fetch_log s ++ [query_request i q o])%list.
Proof.
  rewrite query_eq.
  destruct (refreshSession s) as [[[]|e] s1] eqn:Hr; [|discriminate].
  destruct (instance (client s1)) as [i|] eqn:Hi; [|discriminate].
  cbv zeta. destruct (settle _ _) as [res|e] eqn:Hs; [|discriminate].
  intros H. injection H as <- <-.
  destruct (serve_fetch (query_request i q o) (world s1) eq_refl) as (Ho & Ht & _).
  apply settle_returned in Hs as [Hf _].
  assert (Hrep : replies (world s1) = replies (world s)).
  { destruct (refreshSession_world s) as (_ & _ & _ & _ & H). now rewrite Hr in H. }
  rewrite Ho in Hf. unfold next_reply in Hf.
  destruct (replies (world s1)) as [|a rest] eqn:Hq; [discriminate|].
  exists s1, i, a. repeat split; try assumption.
  - unfold served. cbn [world]. rewrite Ht, <- Hrep. reflexivity.
  - rewrite fetch_log_served, is_login_query_request.
    pose proof (fetch_log_refreshSession s) as H. rewrite Hr in H. cbn [snd] in H.
    now rewrite H.
Qed.

(** Whatever [query] does, it issues at most its own request besides
    logins. *)
Lemma query_fetch_log q o s :
  fetch_log (snd (query q o s)) = fetch_log s \/
  exists i, fetch_log (snd (query q o s)) = (fetch_log s ++ [query_request i q o])%list.
Proof.
  rewrite query_eq.
  pose proof (fetch_log_refreshSession s) as H.
  destruct (refreshSession s) as [[[]|e] s1]; cbn [snd] in *; [|now left].
  destruct (instance (client s1)) as [i|]; [|now left].
  right. exists i. cbv zeta.
  destruct (settle _ _); cbn [snd];
    now rewrite fetch_log_served, is_login_query_request, H.
Qed.


(** ** [find] *)

Lemma next_page_eq link o result s :
  next_page link o result s =
  match query link o s with
  | (Raised e, s1) => (Raised e, s1)
  | (Returned b, s1) =>
      match get_prop b "value" with
      | Raised e => (Raised e, s1)
      | Returned v => (Returned (b, concat result v), s1)
      end
  end.
Proof.
  unfold next_page, bind, lift, ret.
  destruct (query link o s) as [[b|e] s1]; [|reflexivity].
  destruct (get_prop b "value"); reflexivity.
Qed.

Lemma next_page_returned link o result s b' result' s1 :
  next_page link o result s = (Returned (b', result'), s1) ->
  query link o s = (Returned b', s1) /\
  exists v, get_prop b' "value" = Returned v /\ result' = concat result v.
Proof.
  rewrite next_page_eq. destruct (query link o s) as [[b|e] s2]; [|discriminate].
  destruct (get_prop b "value") as [v|e] eqn:Hv; [|discriminate].
  intros H. injection H as <- <- <-. split; [reflexivity|]. now exists v.
Qed.

Lemma next_page_fetch_log link o result s :
  fetch_log (snd (next_page link o result s)) = fetch_log s \/
  exists i,
    fetch_log (snd (next_page link o result s)) =
    (fetch_log s ++ [query_request i link o])%list.
Proof.
  rewrite next_page_eq. pose proof (query_fetch_log link o s) as H.
  destruct (query link o s) as [[b|e] s1]; cbn [snd] in *; [|exact H].
  destruct (get_prop b "value"); exact H.
Qed.

(** More fuel does not change a result. *)
Lemma find_while_fuel_mono fuel :
  forall fuel' o b result s r,
    (fuel <= fuel')%nat ->
    find_while fuel o b result s = Some r ->
    find_while fuel' o b result s = Some r.
Proof.
  induction fuel as [|fuel IH]; intros fuel' o b result s r Hle; [discriminate|].
  destruct fuel' as [|fuel']; [lia|]. cbn [find_while].
  destruct (get_prop b "@odata.nextLink") as [link|e]; [|trivial].
  destruct (truthy link); [|trivial].
  destruct (next_page link o result s) as [[[b' result']|e] s1]; [|trivial].
  apply IH. lia.
Qed.

(** The loop ends before the fuel does when there is more fuel than scripted
    answers. *)
Lemma find_while_total fuel :
  forall o b result s,
    (List.length (replies (world s)) < fuel)%nat ->
    exists r, find_while fuel o b result s = Some r.
Proof.
  induction fuel as [|fuel IH]; intros o b result s Hlt; [lia|].
  cbn [find_while].
  destruct (get_prop b "@odata.nextLink") as [link|e]; [|eauto].
  destruct (truthy link); [|eauto].
  destruct (next_page link o result s) as [[[b' result']|e] s1] eqn:Hn; [|eauto].
  apply IH. apply next_page_returned in Hn as [Hq _].
  apply query_returned in Hq as (s0 & i & a & _ & _ & _ & Hrep & _).
  rewrite Hrep in Hlt. cbn in Hlt. lia.
Qed.

Lemma find_fuel_mono fuel fuel' q o s r :
  (fuel <= fuel')%nat ->
  find_fuel fuel q o s = Some r ->
  find_fuel fuel' q o s = Some r.
Proof.
  intros Hle. unfold find_fuel.
  destruct (bind _ _ s) as [[[b result]|e] s1]; [|trivial].
  destruct (get_prop b "@odata.nextLink") as [link|e]; [|trivial].
  destruct (truthy link); [|trivial].
  destruct (next_page _ _ _ _) as [[[b' result']|e] s2]; [|trivial].
  now apply find_while_fuel_mono.
Qed.

(** The first page of [find]: the session check and [this.query(query)]. *)
Lemma first_page_eq q s :
  (refreshSession ;;
   request <- query q JUndefined ;;
   value <- lift (get_prop request "value") ;;
   ret (request, concat [] value)) s =
  match refreshSession s with
  | (Raised e, s0) => (Raised e, s0)
  | (Returned _, s0) => next_page q JUndefined [] s0
  end.
Proof.
  unfold bind at 1. destruct (refreshSession s) as [[[]|e] s0]; reflexivity.
Qed.

Lemma find_fuel_total fuel q o s :
  (List.length (replies (world s)) < fuel)%nat ->
  exists r, find_fuel fuel q o s = Some r.
Proof.
  intros Hlt. unfold find_fuel. rewrite first_page_eq.
  destruct (refreshSession_world s) as (_ & _ & _ & _ & Hr).
  destruct (refreshSession s) as [[[]|e] s0]; cbn [snd] in Hr; [|eauto].
  destruct (next_page q JUndefined [] s0) as [[[b result]|e] s1] eqn:H1; [|eauto].
  destruct (get_prop b "@odata.nextLink") as [link|e]; [|eauto].
  destruct (truthy link); [|eauto].
  destruct (next_page link _ result s1) as [[[b' result']|e] s2] eqn:H2; [|eauto].
  apply find_while_total.
  apply next_page_returned in H1 as [H1 _]. apply next_page_returned in H2 as [H2 _].
  apply query_returned in H1 as (? & ? & ? & _ & _ & _ & Hrep1 & _).
  apply query_returned in H2 as (? & ? & ? & _ & _ & _ & Hrep2 & _).
  rewrite <- Hr, Hrep1, Hrep2 in Hlt. cbn in Hlt. lia.
Qed.

(** [find] always ends, and any larger amount of fuel gives its result. *)
Lemma find_total q o s : exists r, find q o s = Some r.
Proof. apply find_fuel_total. lia. Qed.

Lemma find_fuel_enough fuel q o s :
  (List.length (replies (world s)) < fuel)%nat ->
  find_fuel fuel q o s = find q o s.
Proof.
  intros Hlt. destruct (find_total q o s) as [r Hr]. rewrite Hr.
  apply (find_fuel_mono (S (List.length (replies (world s))))); [lia|exact Hr].
Qed.

(** [if (c) { body; while (c) body }] is [while (c) body]: [find] is the
    first page followed by the loop. *)
Lemma find_fuel_eq fuel q o s :
  find_fuel fuel q o s =
  match refreshSession s with
  | (Raised e, s0) => Some (Raised e, s0)
  | (Returned _, s0) =>
      match next_page q JUndefined [] s0 with
      | (Raised e, s1) => Some (Raised e, s1)
      | (Returned (b, result), s1) =>
          find_while (S fuel) (or_default o (JObj [])) b result s1
      end
  end.
Proof.
  unfold find_fuel. rewrite first_page_eq.
  destruct (refreshSession s) as [[[]|e] s0]; [|reflexivity].
  destruct (next_page q JUndefined [] s0) as [[[b result]|e] s1]; reflexivity.
Qed.

(** The loop walks along a chain of pages. *)
Lemma find_while_follows o b s pages b' s' :
  follows o b s pages b' s' ->
  forall fuel result,
    find_while (List.length pages + fuel) o b result s =
    find_while fuel o b' (result ++ List.concat pages) s'.
Proof.
  induction 1 as [b s|b s link b1 items s1 rest b2 s2 Hl Ht Hq Hv _ IH];
    intros fuel result.
  - cbn. now rewrite app_nil_r.
  - cbn [List.length Nat.add find_while]. rewrite Hl, Ht, next_page_eq, Hq, Hv.
    cbn [concat List.concat]. rewrite IH. now rewrite <- app_assoc.
Qed.

Lemma find_while_last_page fuel o b result s :
  last_page b -> find_while (S fuel) o b result s = Some (Returned result, s).
Proof. intros (link & Hl & Ht). cbn. now rewrite Hl, Ht. Qed.

Lemma follows_replies o b s pages b' s' :
  follows o b s pages b' s' ->
  List.length (replies (world s)) =
  (List.length pages + List.length (replies (world s')))%nat.
Proof.
  induction 1 as [b s|b s link b1 items s1 rest b2 s2 _ _ Hq _ _ IH]; [reflexivity|].
  apply query_returned in Hq as (? & ? & ? & _ & _ & _ & Hrep & _).
  rewrite Hrep. cbn. lia.
Qed.

Lemma follows_fetch_log o b s pages b' s' :
  follows o b s pages b' s' ->
  List.length (fetch_log s') = (List.length (fetch_log s) + List.length pages)%nat.
Proof.
  induction 1 as [b s|b s link b1 items s1 rest b2 s2 _ _ Hq _ _ IH]; [cbn; lia|].
  apply query_returned in Hq as (? & ? & ? & _ & _ & _ & _ & Hlog).
  rewrite IH, Hlog, length_app. cbn. lia.
Qed.

(** [find] on a first page followed by a chain. *)
Lemma find_first_then_follows q o s s0 b1 s1 v pages bk sk :
  refreshSession s = (Returned tt, s0) ->
  query q JUndefined s0 = (Returned b1, s1) ->
  get_prop b1 "value" = Returned v ->
  follows (or_default o (JObj [])) b1 s1 pages bk sk ->
  find q o s =
  find_while (S (List.length (replies (world sk)))) (or_default o (JObj []))
             bk (concat [] v ++ List.concat pages) sk.
Proof.
  intros Hr Hq Hv Hf. unfold find. rewrite find_fuel_eq, Hr, next_page_eq, Hq, Hv.
  destruct (refreshSession_world s) as (_ & _ & _ & _ & Hrep0).
  rewrite Hr in Hrep0. cbn [snd] in Hrep0.
  pose proof Hq as Hq'.
  apply query_returned in Hq' as (? & ? & ? & _ & _ & _ & Hrep1 & _).
  rewrite <- Hrep0, Hrep1. cbn [List.length].
  rewrite (follows_replies _ _ _ _ _ _ Hf).
  replace (S (S (S (List.length pages + List.length (replies (world sk))))))
    with (List.length pages + S (S (S (List.length (replies (world sk))))))%nat by lia.
  rewrite (find_while_follows _ _ _ _ _ _ Hf).
  destruct (find_while_total (S (List.length (replies (world sk))))
              (or_default o (JObj [])) bk (concat [] v ++ List.concat pages) sk)
    as [r Hr']; [lia|].
  rewrite Hr'. apply (find_while_fuel_mono (S (List.length (replies (world sk)))));
    [lia|exact Hr'].
Qed.

(** ** Strings: the trailing slash *)

Lemma length_append_slash h : String.length (h ++ "/") = S (String.length h).
Proof. induction h as [|c h IH]; cbn; [reflexivity|now rewrite IH]. Qed.

Lemma substring_prefix h t : substring 0 (String.length h) (h ++ t) = h.
Proof. induction h as [|c h IH]; cbn; [now destruct t|now rewrite IH]. Qed.

Lemma substring_suffix h t :
  substring (String.length h) (String.length t) (h ++ t) = t.
Proof.
  induction h as [|c h IH]; cbn; [|exact IH].
  induction t as [|c t IH]; cbn; [reflexivity|now rewrite IH].
Qed.

Lemma normalize_host_slash h : normalize_host (h ++ "/") = h.
Proof.
  unfold normalize_host, slice_last, substring_but_last.
  rewrite length_append_slash. cbn [Nat.sub]. rewrite Nat.sub_0_r.
  change 1%nat with (String.length "/").
  rewrite (substring_suffix h "/"), substring_prefix. reflexivity.
Qed.

Lemma slice_last_slash h : slice_last h = "/" -> exists h', h = h' ++ "/".
Proof.
  unfold slice_last. induction h as [|c h IH]; cbn; [discriminate|].
  rewrite Nat.sub_0_r. destruct h as [|c' h].
  - cbn. intros H. injection H as ->. now exists "".
  - cbn [String.length substring]. intros H.
    cbn [String.length Nat.sub] in IH. rewrite Nat.sub_0_r in IH.
    destruct (IH H) as [h' ->]. now exists (String c h').
Qed.

Lemma normalize_host_other h : (forall h', h <> h' ++ "/") -> normalize_host h = h.
Proof.
  intros H. unfold normalize_host.
  destruct (String.eqb (slice_last h) "/") eqn:E; [|reflexivity].
  apply String.eqb_eq, slice_last_slash in E as [h' ->]. now destruct (H h').
Qed.

Lemma createSession_config given s :
  config (client (snd (createSession given s))) = normalized (config (client s)) given /\
  option_map baseURL (instance (client (snd (createSession given s)))) =
  Some (baseURL (axios_create (normalized (config (client s)) given))).
Proof.
  rewrite createSession_eq. cbv zeta.
  destruct (settle _ _) as [res|e]; [|now split].
  destruct (get_prop _ "SessionId"); [|now split].
  destruct (get_prop _ "SessionTimeout"); now split.
Qed.

(** ** The session manager *)

(** C1 (as amended): for a session that expires at [e], [refreshSession]
    called at or before [e] issues no request and leaves the whole state as
    it is; called strictly after [e] it issues exactly one request, the login
    request, and when that login is answered with an accepted status and a
    body, the session fields are replaced by the new session's. *)
Theorem refreshSession_login_calls (s : State) (e : Z) :
  endSessionTime (client s) = Some (Instant e) ->
  (now (world s) <= e -> refreshSession s = (Returned tt, s)) /\
  (e < now (world s) ->
   let cfg := normalized (config (client s)) (as_arg (config (client s))) in
   sent (world (snd (refreshSession s))) =
     (sent (world s) ++ [login_request cfg])%list /\
   forall a rest st b sid timeout,
     logins (world s) = a :: rest ->
     outcome a = Reply st b ->
     validateStatus st = true ->
     get_prop b "SessionId" = Returned sid ->
     get_prop b "SessionTimeout" = Returned timeout ->
     refreshSession s =
     (Returned tt,
      {| client := logged_in cfg sid timeout (now (world s) + delay a);
         world := {| now := now (world s) + delay a;
                     logins := rest;
                     replies := replies (world s);
                     sent := (sent (world s) ++ [login_request cfg])%list |} |})).
Proof.
  intros He. rewrite refreshSession_eq, He. unfold isAfter, dayjs_of. split.
  - intros Hle. destruct (Z.ltb_spec e (now (world s))); [lia|reflexivity].
  - intros Hlt. destruct (Z.ltb_spec e (now (world s))); [|lia]. split.
    + rewrite createSession_world. apply serve_sent.
    + intros. now apply createSession_succeeds with (st := st) (b := b).
Qed.

Lemma dayjs_of_time_in_range ms :
  - MAX_TIME_VALUE <= ms <= MAX_TIME_VALUE -> dayjs_of_time ms = Instant ms.
Proof.
  intros H. unfold dayjs_of_time.
  destruct (Z.leb_spec (- MAX_TIME_VALUE) ms); [|lia].
  destruct (Z.leb_spec ms MAX_TIME_VALUE); [reflexivity|lia].
Qed.

Lemma dayjs_of_time_out_of_range ms :
  ~ - MAX_TIME_VALUE <= ms <= MAX_TIME_VALUE -> dayjs_of_time ms = InvalidDate.
Proof.
  intros H. unfold dayjs_of_time.
  destruct (Z.leb_spec (- MAX_TIME_VALUE) ms); [|reflexivity].
  destruct (Z.leb_spec ms MAX_TIME_VALUE); [lia|reflexivity].
Qed.

(** C5 (as amended): after a successful login that returned a timeout of
    [timeout] minutes, the stored creation instant is the one at which the
    login was answered, and the stored expiry instant is the creation instant
    plus [timeout - 1] minutes, exactly, as long as that instant lies within
    the range of a [Date]; beyond the range the stored expiry is an invalid
    date. *)
Theorem createSession_expiry given s a rest st b timeout :
  logins (world s) = a :: rest ->
  outcome a = Reply st b ->
  validateStatus st = true ->
  get_prop b "SessionTimeout" = Returned (JNum timeout) ->
  let created := now (world s) + delay a in
  let expiry := created + (timeout - 1) * MILLISECONDS_A_MINUTE in
  let s' := snd (createSession given s) in
  fst (createSession given s) = Returned tt /\
  startSessionTime (client s') = Some (Instant created) /\
  (- MAX_TIME_VALUE <= expiry <= MAX_TIME_VALUE ->
   endSessionTime (client s') = Some (Instant expiry)) /\
  (~ - MAX_TIME_VALUE <= expiry <= MAX_TIME_VALUE ->
   endSessionTime (client s') = Some InvalidDate).
Proof.
  intros Hl Ho Hv Ht created expiry s'. subst s'.
  assert (Hsid : exists sid, get_prop b "SessionId" = Returned sid).
  { destruct b; cbn in Ht |- *; try discriminate; eauto. }
  destruct Hsid as [sid Hsid].
  rewrite (createSession_succeeds given s a rest st b sid (JNum timeout) Hl Ho Hv Hsid Ht).
  cbn [fst snd client logged_in startSessionTime endSessionTime].
  unfold dayjs_add_minute, js_minus, js_to_number, option_map.
  fold created. fold expiry.
  split; [reflexivity|]. split; [reflexivity|]. split; intros H.
  - now rewrite dayjs_of_time_in_range.
  - now rewrite dayjs_of_time_out_of_range.
Qed.

(** C8: [createSession] stores the host without its trailing slash, and
    builds the base URL from the stored host; a host that does not end in a
    slash is stored as it is. *)
Theorem createSession_host given s :
  let merged := spread (config (client s)) given in
  let s' := snd (createSession given s) in
  (forall h, host merged = h ++ "/" ->
     host (config (client s')) = h /\
     option_map baseURL (instance (client s')) =
       Some (h ++ ":" ++ string_of_Z (port merged) ++ "/b1s/" ++ version merged ++ "/")) /\
  ((forall h, host merged <> h ++ "/") ->
     host (config (client s')) = host merged /\
     option_map baseURL (instance (client s')) =
       Some (host merged ++ ":" ++ string_of_Z (port merged)
             ++ "/b1s/" ++ version merged ++ "/")).
Proof.
  intros merged s'. subst s'.
  destruct (createSession_config given s) as [-> ->].
  unfold normalized. fold merged. unfold axios_create, with_host.
  cbn [host port version baseURL]. split.
  - intros h ->. now rewrite normalize_host_slash.
  - intros H. now rewrite normalize_host_other.
Qed.

(** ** The request facade *)

(** C9: a 405 answer, like a 2xx one, makes [get] return the body as it is;
    any other status makes it return the tagged error object. *)
Theorem get_status_405 resource o s s1 i a rest st b :
  refreshSession s = (Returned tt, s1) ->
  instance (client s1) = Some i ->
  replies (world s1) = a :: rest ->
  outcome a = Reply st b ->
  let s2 := served (facade_request (Get resource o) i) s1 in
  (st = 405 -> get resource o s = (Returned b, s2)) /\
  (200 <= st < 300 -> get resource o s = (Returned b, s2)) /\
  (~ 200 <= st < 300 -> st <> 405 -> get resource o s = (Returned (tagged b), s2)).
Proof.
  intros Hr Hi Hrep Ho s2. subst s2.
  change (get resource o) with (run (Get resource o)).
  rewrite run_eq, Hr, Hi. cbv zeta.
  destruct (serve_fetch (facade_request (Get resource o) i) (world s1) eq_refl)
    as (-> & _ & _).
  unfold next_reply. rewrite Hrep, Ho.
  assert (Hok : validateStatus st = true ->
                settle (facade_request (Get resource o) i) (Reply st b)
                = Returned {| status := st; body := b |})
    by apply settle_reply.
  split; [|split].
  - intros H. rewrite Hok; [reflexivity|]. apply validateStatus_spec. now right.
  - intros H. rewrite Hok; [reflexivity|]. apply validateStatus_spec. now left.
  - intros H1 H2. rewrite settle_failing.
    + now rewrite parseError_axios_error.
    + cbn. destruct (validateStatus st) eqn:E; [|reflexivity].
      apply validateStatus_spec in E. tauto.
Qed.

(** C4: [get], [put], [patch] and [post] never raise, and a transport
    failure comes back as the tagged object, with the response body as its
    message when a response with a refused status arrived, ["ERROR REQUEST"]
    when the request got no response, and the error's own message when the
    request was not sent; a failing re-login on an expired session is
    reported the same way. *)
Theorem facade_transport_failure (f : Facade) :
  (forall s, exists v s', run f s = (Returned v, s')) /\
  (forall s s1 i,
     refreshSession s = (Returned tt, s1) ->
     instance (client s1) = Some i ->
     let r := facade_request f i in
     (forall st b,
        answer r (world s1) = Reply st b -> validateStatus st = false ->
        run f s = (Returned (tagged b), served r s1)) /\
     (forall msg,
        answer r (world s1) = NoReply msg ->
        run f s = (Returned (tagged (JStr "ERROR REQUEST")), served r s1)) /\
     (forall msg,
        answer r (world s1) = NotSent msg ->
        run f s = (Returned (tagged (JStr msg)), served r s1))) /\
  (forall s,
     isAfter (now (world s)) (endSessionTime (client s)) = true ->
     failing (next_login (world s)) = true ->
     fst (run f s) = Returned (tagged (failure_message (next_login (world s))))).
Proof.
  split; [|split].
  - intros s. rewrite run_eq.
    destruct (refreshSession s) as [[[]|e] s1] eqn:Hr.
    + destruct (instance (client s1)) as [i|].
      * cbv zeta. destruct (settle _ _) as [res|e] eqn:Hs; [eauto|].
        apply settle_raised in Hs as [_ ->]. rewrite parseError_axios_error. eauto.
      * rewrite parseError_TypeError. eauto.
    + apply refreshSession_raised in Hr.
      destruct (parseError_well_formed e s1 Hr) as [v Hv]. eauto.
  - intros s s1 i Hr Hi r. unfold answer.
    assert (H : forall o, fst (serve r (world s1)) = o -> failing o = true ->
                run f s = (Returned (tagged (failure_message o)), served r s1)).
    { intros o Ho Hf. rewrite run_eq, Hr, Hi. cbv zeta. fold r.
      now rewrite Ho, settle_failing, parseError_axios_error. }
    split; [|split].
    + intros st b Ho Hv. apply (H _ Ho). cbn. now rewrite Hv.
    + intros msg Ho. now apply (H _ Ho).
    + intros msg Ho. now apply (H _ Ho).
  - intros s Ha Hf. rewrite run_eq, refreshSession_eq, Ha.
    rewrite createSession_failing by exact Hf. cbv zeta.
    now rewrite parseError_axios_error.
Qed.

(** C3 (as amended): when the login request fails, [createSession] raises
    the transport's error, and so do [refreshSession], [query] and [find] on
    an expired session; [get], [put], [patch] and [post] on an expired
    session catch it and return the tagged object instead. *)
Theorem login_failure_propagation (s : State) :
  failing (next_login (world s)) = true ->
  (forall given,
     let cfg := normalized (config (client s)) given in
     createSession given s =
     (Raised (axios_error (login_request cfg) (next_login (world s))),
      {| client := logging_in (client s) cfg;
         world := snd (serve (login_request cfg) (world s)) |})) /\
  (isAfter (now (world s)) (endSessionTime (client s)) = true ->
   let cfg := normalized (config (client s)) (as_arg (config (client s))) in
   let e := axios_error (login_request cfg) (next_login (world s)) in
   let s' := {| client := logging_in (client s) cfg;
                world := snd (serve (login_request cfg) (world s)) |} in
   refreshSession s = (Raised e, s') /\
   (forall q o, query q o s = (Raised e, s')) /\
   (forall q o, find q o s = Some (Raised e, s')) /\
   (forall f, run f s = (Returned (tagged (failure_message (next_login (world s)))), s'))).
Proof.
  intros Hf. split.
  - intros given. now apply createSession_failing.
  - intros Ha cfg e s'.
    assert (Hr : refreshSession s = (Raised e, s')).
    { rewrite refreshSession_eq, Ha. now apply createSession_failing. }
    split; [exact Hr|]. split; [|split].
    + intros q o. now rewrite query_eq, Hr.
    + intros q o. unfold find. now rewrite find_fuel_eq, Hr.
    + intros f. rewrite run_eq, Hr. apply parseError_axios_error.
Qed.

(** C10: [query] and [find] have no handler: a failure of the session check
    or of a page fetch is raised to the caller as the transport raised it, at
    the first page as well as at any later one. *)
Theorem query_find_raise (q o : JsVal) :
  (forall s e s1,
     refreshSession s = (Raised e, s1) ->
     query q o s = (Raised e, s1) /\ find q o s = Some (Raised e, s1)) /\
  (forall s s1 i,
     refreshSession s = (Returned tt, s1) ->
     instance (client s1) = Some i ->
     failing (next_reply (world s1)) = true ->
     query q o s =
     (Raised (axios_error (query_request i q o) (next_reply (world s1))),
      served (query_request i q o) s1)) /\
  (forall s s0 e s1,
     refreshSession s = (Returned tt, s0) ->
     query q JUndefined s0 = (Raised e, s1) ->
     find q o s = Some (Raised e, s1)) /\
  (forall s s0 b1 s1 v pages bk sk link e s',
     refreshSession s = (Returned tt, s0) ->
     query q JUndefined s0 = (Returned b1, s1) ->
     get_prop b1 "value" = Returned v ->
     follows (or_default o (JObj [])) b1 s1 pages bk sk ->
     get_prop bk "@odata.nextLink" = Returned link ->
     truthy link = true ->
     query link (or_default o (JObj [])) sk = (Raised e, s') ->
     find q o s = Some (Raised e, s')).
Proof.
  split; [|split; [|split]].
  - intros s e s1 Hr. split.
    + now rewrite query_eq, Hr.
    + unfold find. now rewrite find_fuel_eq, Hr.
  - intros s s1 i Hr Hi Hf. rewrite query_eq, Hr, Hi. cbv zeta.
    destruct (serve_fetch (query_request i q o) (world s1) eq_refl) as (-> & _ & _).
    now rewrite settle_failing.
  - intros s s0 e s1 Hr Hq. unfold find.
    now rewrite find_fuel_eq, Hr, next_page_eq, Hq.
  - intros s s0 b1 s1 v pages bk sk link e s' Hr Hq Hv Hf Hl Ht Hq'.
    rewrite (find_first_then_follows q o s s0 b1 s1 v pages bk sk Hr Hq Hv Hf).
    cbn [find_while]. now rewrite Hl, Ht, next_page_eq, Hq'.
Qed.

(** ** The pagination engine *)

(** C7: when the first response has no [@odata.nextLink] (or a falsy one),
    [find] returns that response's [value] array as it is, and nothing more
    is fetched. *)
Theorem find_single_page q o s s0 b s1 items :
  refreshSession s = (Returned tt, s0) ->
  query q JUndefined s0 = (Returned b, s1) ->
  get_prop b "value" = Returned (JArr items) ->
  last_page b ->
  find q o s = Some (Returned items, s1).
Proof.
  intros Hr Hq Hv Hlast.
  rewrite (find_first_then_follows q o s s0 b s1 (JArr items) [] b s1 Hr Hq Hv
             (follows_nil _ b s1)).
  rewrite find_while_last_page by exact Hlast.
  cbn. now rewrite app_nil_r.
Qed.

(** C6: when the successive page fetches return a chain of N pages, the
    first for the query and each next one for the link of the page before,
    the last one without a link, [find] returns the N [value] arrays
    concatenated in that order, nothing removed, and has issued exactly N
    page requests. *)
Theorem find_concatenates_chain q o s s0 b1 s1 items pages bN sN :
  refreshSession s = (Returned tt, s0) ->
  query q JUndefined s0 = (Returned b1, s1) ->
  get_prop b1 "value" = Returned (JArr items) ->
  follows (or_default o (JObj [])) b1 s1 pages bN sN ->
  last_page bN ->
  find q o s = Some (Returned (List.concat (items :: pages)), sN) /\
  List.length (fetch_log sN) =
    (List.length (fetch_log s) + List.length (items :: pages))%nat.
Proof.
  intros Hr Hq Hv Hf Hlast. split.
  - rewrite (find_first_then_follows q o s s0 b1 s1 (JArr items) pages bN sN Hr Hq Hv Hf).
    now rewrite find_while_last_page by exact Hlast.
  - rewrite (follows_fetch_log _ _ _ _ _ _ Hf).
    apply query_returned in Hq as (? & ? & ? & _ & _ & _ & _ & ->).
    pose proof (fetch_log_refreshSession s) as H. rewrite Hr in H. cbn [snd] in H.
    rewrite length_app, H. cbn. lia.
Qed.

Lemma or_default_idem v d : or_default (or_default v d) d = or_default v d.
Proof. destruct v; try reflexivity. destruct d; reflexivity. Qed.

(** Every page request the loop issues carries the loop's options. *)
Lemma find_while_fetch_log fuel :
  forall o b result s r s',
    find_while fuel o b result s = Some (r, s') ->
    exists l,
      fetch_log s' = (fetch_log s ++ l)%list /\
      Forall (fun x => method x = GET /\ options x = or_default o (JObj [])) l.
Proof.
  induction fuel as [|fuel IH]; intros o b result s r s'; [discriminate|].
  cbn [find_while].
  assert (Hnil : exists l, fetch_log s = (fetch_log s ++ l)%list /\
                   Forall (fun x => method x = GET /\
                                    options x = or_default o (JObj [])) l).
  { exists []. now rewrite app_nil_r. }
  destruct (get_prop b "@odata.nextLink") as [link|e].
  2:{ intros H. injection H as _ <-. exact Hnil. }
  destruct (truthy link).
  2:{ intros H. injection H as _ <-. exact Hnil. }
  pose proof (next_page_fetch_log link o result s) as Hlog.
  destruct (next_page link o result s) as [[[b' result']|e] s1]; cbn [snd] in Hlog.
  - intros H. apply IH in H as (l & Hl & Hall).
    destruct Hlog as [Hlog|[i Hlog]]; rewrite Hlog in Hl.
    + now exists l.
    + exists (query_request i link o :: l). rewrite <- app_assoc in Hl.
      split; [exact Hl|]. constructor; [now split|exact Hall].
  - intros H. injection H as _ <-.
    destruct Hlog as [Hlog|[i Hlog]]; rewrite Hlog; [exact Hnil|].
    exists [query_request i link o]. split; [reflexivity|].
    constructor; [now split|constructor].
Qed.

(** C2 (as amended): in every run of [find], the first page request, the one
    for the query itself, goes out with the empty default options whatever
    the caller supplied, and every follow-up page request, the first one
    included, carries the caller's options. *)
Theorem find_options (q o : JsVal) (s : State) :
  exists r s' l,
    find q o s = Some (r, s') /\
    fetch_log s' = (fetch_log s ++ l)%list /\
    fetch_options q o l.
Proof.
  destruct (find_total q o s) as [[r s'] Hfind]. exists r, s'.
  cut (exists l, fetch_log s' = (fetch_log s ++ l)%list /\ fetch_options q o l).
  { intros (l & H1 & H2). now exists l. }
  unfold find in Hfind. rewrite find_fuel_eq in Hfind.
  pose proof (fetch_log_refreshSession s) as H0.
  destruct (refreshSession s) as [[[]|e] s0]; cbn [snd] in H0.
  2:{ injection Hfind as _ <-. exists []. rewrite app_nil_r. now split. }
  pose proof (next_page_fetch_log q JUndefined [] s0) as Hlog.
  destruct (next_page q JUndefined [] s0) as [[[b result]|e] s1] eqn:Hn;
    cbn [snd] in Hlog.
  - apply next_page_returned in Hn as [Hq _].
    apply query_returned in Hq as (? & i & ? & _ & _ & _ & _ & Hfirst).
    apply find_while_fetch_log in Hfind as (l & Hl & Hall).
    rewrite or_default_idem in Hall.
    exists (query_request i q JUndefined :: l).
    rewrite Hl, Hfirst, H0, <- app_assoc. split; [reflexivity|].
    cbn. repeat split. exact Hall.
  - injection Hfind as _ <-. rewrite <- H0.
    destruct Hlog as [->|[i ->]].
    + exists []. rewrite app_nil_r. now split.
    + exists [query_request i q JUndefined]. split; [reflexivity|].
      cbn. repeat split. constructor.
Qed.

(** ** The scenario, run *)

(** C1 does not hold as the specification words it: called at the very
    instant of expiry, with a login answer ready, [refreshSession] issues no
    login call. *)
Lemma refreshSession_at_expiry_no_login :
  endSessionTime (client at_expiry) = Some (Instant (now (world at_expiry))) /\
  refreshSession at_expiry = (Returned tt, at_expiry) /\
  login_log (snd (refreshSession at_expiry)) = [].
Proof. vm_compute. repeat split. Qed.

Lemma refreshSession_login_calls_witness :
  refreshSession before_expiry = (Returned tt, before_expiry) /\
  login_log (snd (refreshSession after_expiry)) =
    [login_request (config sap_session)] /\
  sessionTimeout (client (snd (refreshSession after_expiry))) = JNum 30 /\
  endSessionTime (client (snd (refreshSession after_expiry))) =
    Some (Instant (T0 + minutes 30 + 250 + minutes 29)).
Proof.
  split.
  - apply (refreshSession_login_calls before_expiry (T0 + minutes 29) eq_refl).
    vm_compute. discriminate.
  - destruct (refreshSession_login_calls after_expiry (T0 + minutes 29) eq_refl)
      as [_ H].
    destruct (H eq_refl) as [_ Hrun].
    rewrite (Hrun (login_answer "s2" 30) [] 200 _ (JStr "s2") (JNum 30)
               eq_refl eq_refl eq_refl eq_refl eq_refl).
    vm_compute. repeat split.
Defined.

(** C5 does not hold as the specification words it: with a timeout of
    200000000000 minutes (at least 1), the login succeeds and the stored
    expiry is an invalid date, not the creation instant plus 199999999999
    minutes. *)
Lemma createSession_expiry_beyond_range :
  fst (createSession sap_config login_beyond_range) = Returned tt /\
  sessionTimeout (client (snd (createSession sap_config login_beyond_range)))
    = JNum 200000000000 /\
  startSessionTime (client (snd (createSession sap_config login_beyond_range)))
    = Some (Instant T0) /\
  endSessionTime (client (snd (createSession sap_config login_beyond_range)))
    = Some InvalidDate.
Proof. vm_compute. repeat split. Qed.

Lemma createSession_expiry_witness :
  startSessionTime sap_session = Some (Instant T0) /\
  endSessionTime sap_session = Some (Instant (T0 + minutes 29)).
Proof.
  destruct (createSession_expiry sap_config before_login (login_answer "s1" 30) []
              200 _ 30 eq_refl eq_refl eq_refl eq_refl) as (_ & H1 & H2 & _).
  split; [exact H1|]. apply H2. vm_compute. split; discriminate.
Defined.

Lemma createSession_host_witness :
  host (config sap_session) = "https://sap.example" /\
  option_map baseURL (instance sap_session) = Some "https://sap.example:50000/b1s/v2/".
Proof.
  exact (proj1 (createSession_host sap_config before_login)
               "https://sap.example" eq_refl).
Defined.

Lemma get_status_405_witness :
  fst (get (JStr "Orders(10)/Cancel") JUndefined method_not_allowed) = Returned (JStr "").
Proof.
  edestruct (get_status_405 (JStr "Orders(10)/Cancel") JUndefined method_not_allowed)
    as [H _]; [reflexivity|reflexivity|reflexivity|reflexivity|].
  now rewrite H.
Defined.

(** C3 does not hold as the specification words it: on an expired session
    whose re-login the server refuses, [get] does not raise; it returns the
    tagged object made from the login's error, and the login request is all
    that was sent. *)
Lemma get_swallows_login_failure :
  isAfter (now (world expired_refused)) (endSessionTime (client expired_refused)) = true /\
  fst (get (JStr "Orders(10)") JUndefined expired_refused) =
    Returned (tagged (JObj [("error", JStr "Invalid login credential")])) /\
  sent (world (snd (get (JStr "Orders(10)") JUndefined expired_refused))) =
    [login_request (config sap_session)].
Proof. vm_compute. repeat split. Qed.

Lemma login_failure_propagation_witness :
  fst (createSession sap_config expired_refused) =
  Raised (axios_error (login_request (config sap_session)) (outcome login_refused)).
Proof.
  exact (f_equal fst (proj1 (login_failure_propagation expired_refused eq_refl)
                            sap_config)).
Defined.

Lemma facade_transport_failure_witness :
  fst (put (JStr "Orders(10)") (JObj []) silent_network) =
  Returned (tagged (JStr "ERROR REQUEST")).
Proof.
  destruct (facade_transport_failure (Put (JStr "Orders(10)") (JObj [])))
    as (_ & H & _).
  edestruct (H silent_network) as (_ & H2 & _); [reflexivity|reflexivity|].
  change (put (JStr "Orders(10)") (JObj [])) with (run (Put (JStr "Orders(10)") (JObj []))).
  now rewrite (H2 "Network Error" eq_refl).
Defined.

(** C2 does not hold as the specification words it: over a chain of three
    pages, the first follow-up request carries the caller's options, as the
    second one does; the request that goes out without them is the first of
    all. *)
Lemma find_first_followup_keeps_options :
  option_map (fun rs => map options (fetch_log (snd rs)))
             (find (JStr "Orders") caller_options paging) =
    Some [JObj []; caller_options; caller_options] /\
  caller_options <> JObj [].
Proof. split; [vm_compute; reflexivity|discriminate]. Qed.

Lemma find_options_witness :
  exists r s' l,
    find (JStr "Orders") caller_options paging = Some (r, s') /\
    fetch_log s' = (fetch_log paging ++ l)%list /\
    fetch_options (JStr "Orders") caller_options l.
Proof. exact (find_options (JStr "Orders") caller_options paging). Defined.

Lemma find_single_page_witness :
  option_map fst (find (JStr "Orders") JUndefined one_page) =
  Some (Returned [JNum 7; JNum 7]).
Proof.
  erewrite (find_single_page (JStr "Orders") JUndefined one_page);
    [reflexivity|reflexivity|vm_compute; reflexivity|reflexivity|].
  exists JUndefined. split; reflexivity.
Defined.

Lemma find_concatenates_chain_witness :
  exists sN,
    find (JStr "Orders") caller_options paging =
      Some (Returned [JNum 1; JNum 2; JNum 3; JNum 2; JNum 5], sN) /\
    List.length (fetch_log sN) = 3%nat.
Proof.
  edestruct (find_concatenates_chain (JStr "Orders") caller_options paging)
    as [H1 H2].
  - reflexivity.
  - vm_compute. reflexivity.
  - reflexivity.
  - eapply follows_cons; [reflexivity|reflexivity|vm_compute; reflexivity|reflexivity|].
    eapply follows_cons; [reflexivity|reflexivity|vm_compute; reflexivity|reflexivity|].
    apply follows_nil.
  - exists JUndefined. split; reflexivity.
  - eexists. split; [exact H1|exact H2].
Defined.

Lemma query_find_raise_witness :
  exists e s',
    find (JStr "Orders") JUndefined failing_second_page = Some (Raised e, s') /\
    option_map status (response e) = Some 500.
Proof.
  destruct (query_find_raise (JStr "Orders") JUndefined) as (_ & _ & _ & H).
  eexists. eexists. split.
  - eapply (H failing_second_page); [reflexivity|vm_compute; reflexivity|
      reflexivity|apply follows_nil|reflexivity|reflexivity|vm_compute; reflexivity].
  - reflexivity.
Defined.

(** * Further properties *)

Lemma slice_last_append_slash h : slice_last (h ++ "/") = "/".
Proof.
  unfold slice_last. rewrite length_append_slash. cbn [Nat.sub].
  rewrite Nat.sub_0_r. change 1%nat with (String.length "/").
  apply substring_suffix.
Qed.

(** A host whose last character is not a slash. *)
Lemma no_trailing_slash h :
  String.eqb (slice_last h) "/" = false -> forall h', h <> h' ++ "/".
Proof.
  intros H h' ->. rewrite slice_last_append_slash in H. discriminate.
Qed.

(** ** Further properties of the session manager *)

(** X1: on a client fresh from the constructor, the fields a caller leaves
    out of the configuration keep the constructor's defaults: without [port]
    and [version] the base URL is the normalized host followed by
    [:80/b1s/v2/], and without [host] it starts with [http://localhost]. *)
Theorem createSession_defaults (given : ConfigArg) (w : World) :
  arg_port given = None ->
  arg_version given = None ->
  let s' := snd (createSession given {| client := new_ServiceLayer; world := w |}) in
  port (config (client s')) = 80 /\
  version (config (client s')) = "v2" /\
  host (config (client s')) =
    normalize_host (spread_field "http://localhost" (arg_host given)) /\
  option_map baseURL (instance (client s')) =
    Some (normalize_host (spread_field "http://localhost" (arg_host given))
          ++ ":80/b1s/v2/").
Proof.
  intros Hp Hv s'. subst s'.
  destruct (createSession_config given {| client := new_ServiceLayer; world := w |})
    as [-> ->].
  unfold normalized, spread, axios_create, with_host. cbn [client config new_ServiceLayer
    port version host baseURL]. rewrite Hp, Hv. cbn [spread_field].
  repeat split.
Qed.

(** X2: whatever the answer, [createSession] sends exactly one request: the
    POST to [Login] with the company, password and user name of the merged
    configuration, through the instance it has just created, which carries
    no cookie (so a re-login never sends the old session's cookie). *)
Theorem createSession_sends_one_login (given : ConfigArg) (s : State) :
  let cfg := normalized (config (client s)) given in
  let r := {| via := {| baseURL := host cfg ++ ":" ++ string_of_Z (port cfg)
                                   ++ "/b1s/" ++ version cfg ++ "/";
                        Cookie := None |};
              method := POST;
              url := JStr "Login";
              data := JObj [("CompanyDB", JStr (company cfg));
                            ("Password", JStr (password cfg));
                            ("UserName", JStr (username cfg))];
              options := JUndefined |} in
  sent (world (snd (createSession given s))) = (sent (world s) ++ [r])%list.
Proof.
  intros cfg r. rewrite createSession_world. fold cfg. now rewrite serve_sent.
Qed.

(** A facade call whose session check passes sends its own request, and
    nothing else after the check. *)
Lemma run_sent f s s1 i :
  refreshSession s = (Returned tt, s1) ->
  instance (client s1) = Some i ->
  sent (world (snd (run f s))) = (sent (world s1) ++ [facade_request f i])%list /\
  client (snd (run f s)) = client s1.
Proof.
  intros Hr Hi. rewrite run_eq, Hr, Hi. cbv zeta.
  destruct (settle _ _) as [res|e] eqn:Hs.
  - unfold served. cbn [snd world client]. now rewrite serve_sent.
  - apply settle_raised in Hs as [_ ->]. rewrite parseError_axios_error.
    unfold served. cbn [snd world client]. now rewrite serve_sent.
Qed.

(** X3: after a successful login, a facade call made while the session is
    valid goes out through the instance that carries the cookie
    [B1SESSION=<id>;CompanyDB=<company>] and the base URL built at login. *)
Theorem session_cookie_on_requests given s a rest st b sid timeout f w :
  logins (world s) = a :: rest ->
  outcome a = Reply st b ->
  validateStatus st = true ->
  get_prop b "SessionId" = Returned sid ->
  get_prop b "SessionTimeout" = Returned timeout ->
  let cfg := normalized (config (client s)) given in
  let c := client (snd (createSession given s)) in
  let i := {| baseURL := host cfg ++ ":" ++ string_of_Z (port cfg)
                         ++ "/b1s/" ++ version cfg ++ "/";
              Cookie := Some ("B1SESSION=" ++ js_to_string sid
                              ++ ";CompanyDB=" ++ company cfg) |} in
  isAfter (now w) (endSessionTime c) = false ->
  sent (world (snd (run f {| client := c; world := w |}))) =
  (sent w ++ [facade_request f i])%list.
Proof.
  intros Hl Ho Hv Hsid Ht cfg c i Ha. subst c.
  rewrite (createSession_succeeds given s a rest st b sid timeout Hl Ho Hv Hsid Ht) in *.
  cbn [snd client] in *. fold cfg in Ha |- *.
  set (s1 := {| client := logged_in cfg sid timeout (now (world s) + delay a);
                world := w |}).
  assert (Hr : refreshSession s1 = (Returned tt, s1)).
  { rewrite refreshSession_eq. cbn [s1 client world]. now rewrite Ha. }
  exact (proj1 (run_sent f s1 s1 i Hr eq_refl)).
Qed.

(** X4: on a client fresh from the constructor, no call logs in or sends
    anything, and the state stays as it is: the session check passes (there
    is no expiry instant to be after); [get], [put], [patch] and [post]
    return the tagged object whose message is the text of the [TypeError]
    raised on the [null] instance, which names the method that was read; and
    [query] and [find] raise that [TypeError] itself, for the method [get],
    with neither a response nor a request. *)
Theorem calls_before_session (s : State) (resource x q o : JsVal) :
  client s = new_ServiceLayer ->
  refreshSession s = (Returned tt, s) /\
  get resource x s =
    (Returned (JObj [("error", JBool true);
                     ("message", JStr "Cannot read properties of null (reading 'get')")]),
     s) /\
  put resource x s =
    (Returned (JObj [("error", JBool true);
                     ("message", JStr "Cannot read properties of null (reading 'put')")]),
     s) /\
  patch resource x s =
    (Returned (JObj [("error", JBool true);
                     ("message", JStr "Cannot read properties of null (reading 'patch')")]),
     s) /\
  post resource x s =
    (Returned (JObj [("error", JBool true);
                     ("message", JStr "Cannot read properties of null (reading 'post')")]),
     s) /\
  query q o s =
    (Raised {| response := None; request := None;
               message := JStr "Cannot read properties of null (reading 'get')" |},
     s) /\
  find q o s =
    Some (Raised {| response := None; request := None;
                    message := JStr "Cannot read properties of null (reading 'get')" |},
          s).
Proof.
  intros Hc.
  assert (Hr : refreshSession s = (Returned tt, s)).
  { rewrite refreshSession_eq, Hc. reflexivity. }
  assert (Hrun : forall f,
             run f s =
             (Returned (tagged (JStr ("Cannot read properties of null (reading '"
                                      ++ verb_name f ++ "')"))), s)).
  { intros f. rewrite run_eq, Hr, Hc. cbn [instance new_ServiceLayer].
    apply parseError_TypeError. }
  assert (Hq : forall q' o',
             query q' o' s =
             (Raised (TypeError "Cannot read properties of null (reading 'get')"), s)).
  { intros q' o'. rewrite query_eq, Hr, Hc. reflexivity. }
  split; [exact Hr|].
  split; [exact (Hrun (Get resource x))|].
  split; [exact (Hrun (Put resource x))|].
  split; [exact (Hrun (Patch resource x))|].
  split; [exact (Hrun (Post resource x))|].
  split; [exact (Hq q o)|].
  unfold find. now rewrite find_fuel_eq, Hr, next_page_eq, Hq.
Qed.

(** X5: a login answered with an accepted status (405 included) and a body
    that has neither [SessionId] nor [SessionTimeout] does not fail: the
    cookie is [B1SESSION=undefined;CompanyDB=<company>], the expiry instant is
    an invalid date, and from then on no session check ever logs in again,
    whatever the clock shows. *)
Theorem login_without_fields given s a rest st b :
  logins (world s) = a :: rest ->
  outcome a = Reply st b ->
  validateStatus st = true ->
  get_prop b "SessionId" = Returned JUndefined ->
  get_prop b "SessionTimeout" = Returned JUndefined ->
  let cfg := normalized (config (client s)) given in
  let c := client (snd (createSession given s)) in
  fst (createSession given s) = Returned tt /\
  option_map Cookie (instance c) =
    Some (Some ("B1SESSION=undefined;CompanyDB=" ++ company cfg)) /\
  endSessionTime c = Some InvalidDate /\
  forall w, refreshSession {| client := c; world := w |}
            = (Returned tt, {| client := c; world := w |}).
Proof.
  intros Hl Ho Hv Hsid Ht cfg c. subst c.
  rewrite (createSession_succeeds given s a rest st b _ _ Hl Ho Hv Hsid Ht).
  fold cfg. cbn [fst snd client].
  split; [reflexivity|]. split; [reflexivity|]. split; [reflexivity|].
  intros w. rewrite refreshSession_eq. reflexivity.
Qed.

(** X6: a login answered with an accepted status and a [null] (or missing)
    body raises from [createSession]: the error is not the transport's (it
    has neither response nor request), the old session fields stay, and the
    new instance is left without a cookie. *)
Theorem login_null_body given s a rest st b :
  logins (world s) = a :: rest ->
  outcome a = Reply st b ->
  validateStatus st = true ->
  b = JNull \/ b = JUndefined ->
  let s' := snd (createSession given s) in
  (exists e, fst (createSession given s) = Raised e /\
             response e = None /\ request e = None) /\
  session_fields (client s') = session_fields (client s) /\
  option_map Cookie (instance (client s')) = Some None.
Proof.
  intros Hl Ho Hv Hb s'. subst s'. rewrite createSession_eq. cbv zeta.
  unfold serve. rewrite is_login_login_request, Hl. cbn [fst snd].
  rewrite Ho, settle_reply by exact Hv. cbn [body].
  destruct Hb as [-> | ->]; cbn [get_prop fst snd client];
    (split; [eexists; repeat split|split; reflexivity]).
Qed.

(** X7: after a successful login with a timeout of [timeout] minutes, call
    [deadline] the instant [timeout - 1] minutes after the login was
    answered.  When it lies within the range of a [Date], the session check
    is a no-op up to and including [deadline] and sends a login request at
    any later instant (with a timeout of 1 the session is due for renewal as
    soon as the clock has moved); when it lies beyond the range, the stored
    expiry is an invalid date and the session check never logs in again. *)
Theorem relogin_window given s a rest st b timeout w :
  logins (world s) = a :: rest ->
  outcome a = Reply st b ->
  validateStatus st = true ->
  get_prop b "SessionTimeout" = Returned (JNum timeout) ->
  let c := client (snd (createSession given s)) in
  let deadline := now (world s) + delay a + (timeout - 1) * MILLISECONDS_A_MINUTE in
  let s1 := {| client := c; world := w |} in
  (- MAX_TIME_VALUE <= deadline <= MAX_TIME_VALUE ->
   (now w <= deadline -> refreshSession s1 = (Returned tt, s1)) /\
   (deadline < now w ->
    sent (world (snd (refreshSession s1))) =
    (sent w ++ [login_request (normalized (config c) (as_arg (config c)))])%list)) /\
  (~ - MAX_TIME_VALUE <= deadline <= MAX_TIME_VALUE ->
   refreshSession s1 = (Returned tt, s1)).
Proof.
  intros Hl Ho Hv Ht c deadline s1.
  assert (Hsid : exists sid, get_prop b "SessionId" = Returned sid).
  { destruct b; cbn in Ht |- *; try discriminate; eauto. }
  destruct Hsid as [sid Hsid].
  assert (He : endSessionTime c = Some (dayjs_of_time deadline)).
  { subst c. now rewrite (createSession_succeeds given s a rest st b sid _ Hl Ho Hv Hsid Ht). }
  rewrite refreshSession_eq. cbn [s1 client world]. rewrite He.
  unfold isAfter, dayjs_of. split; intros Hrange.
  - rewrite dayjs_of_time_in_range by exact Hrange. split; intros H.
    + destruct (Z.ltb_spec deadline (now w)); [lia|reflexivity].
    + destruct (Z.ltb_spec deadline (now w)); [|lia].
      rewrite createSession_world. now rewrite serve_sent.
  - now rewrite dayjs_of_time_out_of_range.
Qed.

Lemma spread_as_arg c : spread c (as_arg c) = c.
Proof. now destruct c. Qed.

(** X8: a re-login normalizes the stored host once more.  A stored host that
    still ends in a slash (it was given with two) loses it at the first
    re-login, so the base URL changes; a stored host without trailing slash
    is kept, and with it the whole configuration. *)
Theorem relogin_normalizes_host (s : State) :
  isAfter (now (world s)) (endSessionTime (client s)) = true ->
  let s' := snd (refreshSession s) in
  (forall h, host (config (client s)) = h ++ "/" ->
     host (config (client s')) = h /\
     option_map baseURL (instance (client s')) =
       Some (h ++ ":" ++ string_of_Z (port (config (client s)))
             ++ "/b1s/" ++ version (config (client s)) ++ "/")) /\
  ((forall h, host (config (client s)) <> h ++ "/") ->
     config (client s') = config (client s)).
Proof.
  intros Ha s'. subst s'. rewrite refreshSession_eq, Ha.
  destruct (createSession_config (as_arg (config (client s))) s) as [-> ->].
  unfold normalized. rewrite spread_as_arg. split.
  - intros h Hh. unfold axios_create, with_host. cbn [host port version baseURL].
    now rewrite Hh, normalize_host_slash.
  - intros Hh. rewrite normalize_host_other by exact Hh.
    now destruct (config (client s)).
Qed.

(** X9: one trailing slash on the host makes no difference: [createSession]
    behaves the same, in result and in state, whether a host that does not
    end in a slash is given with one more slash or without. *)
Theorem trailing_slash_irrelevant (given : ConfigArg) (h : string) (s : State) :
  (forall h', h <> h' ++ "/") ->
  createSession (with_arg_host given (h ++ "/")) s =
  createSession (with_arg_host given h) s.
Proof.
  intros Hh. rewrite !createSession_eq.
  assert (E : normalized (config (client s)) (with_arg_host given (h ++ "/")) =
              normalized (config (client s)) (with_arg_host given h)).
  { unfold normalized, spread, with_host, with_arg_host.
    cbn [arg_host arg_port arg_version arg_debug arg_company arg_password
         arg_username spread_field host port version debug company password username].
    now rewrite normalize_host_slash, normalize_host_other. }
  now rewrite E.
Qed.

(** ** Further properties of the request facade and of [find] *)

(** X10: [query] on a valid session hands back the response body as it is
    for every accepted status, 405 included, leaves the client untouched and
    sends one GET for [q], with the empty object as options when the caller
    gave none. *)
Theorem query_passthrough q o s i a rest st b :
  isAfter (now (world s)) (endSessionTime (client s)) = false ->
  instance (client s) = Some i ->
  replies (world s) = a :: rest ->
  outcome a = Reply st b ->
  200 <= st < 300 \/ st = 405 ->
  let r := {| via := i; method := GET; url := q; data := JUndefined;
              options := match o with JUndefined => JObj [] | _ => o end |} in
  query q o s =
  (Returned b,
   {| client := client s;
      world := {| now := now (world s) + delay a;
                  logins := logins (world s);
                  replies := rest;
                  sent := (sent (world s) ++ [r])%list |} |}).
Proof.
  intros Ha Hi Hrep Ho Hst r. apply validateStatus_spec in Hst.
  rewrite query_eq, refreshSession_eq, Ha, Hi. cbv zeta.
  unfold served, serve. rewrite is_login_query_request, Hrep. cbn [fst snd].
  now rewrite Ho, settle_reply.
Qed.

(** X11: [put], [patch] and [post] on a valid session send one request with
    their own HTTP method, the resource as target and the payload as data
    (no options), and return the body of an accepted answer; the client is
    left as it was. *)
Theorem mutating_verbs_send_payload resource payload s i st b :
  isAfter (now (world s)) (endSessionTime (client s)) = false ->
  instance (client s) = Some i ->
  let r m := {| via := i; method := m; url := resource; data := payload;
                options := JUndefined |} in
  validateStatus st = true ->
  (answer (r PUT) (world s) = Reply st b ->
   put resource payload s = (Returned b, served (r PUT) s)) /\
  (answer (r PATCH) (world s) = Reply st b ->
   patch resource payload s = (Returned b, served (r PATCH) s)) /\
  (answer (r POST) (world s) = Reply st b ->
   post resource payload s = (Returned b, served (r POST) s)).
Proof.
  intros Ha Hi r Hv.
  assert (H : forall f, answer (facade_request f i) (world s) = Reply st b ->
                        run f s = (Returned b, served (facade_request f i) s)).
  { intros f Hans. rewrite run_eq, refreshSession_eq, Ha, Hi. cbv zeta.
    unfold answer in Hans. now rewrite Hans, settle_reply. }
  split; [|split]; intros Hans.
  - exact (H (Put resource payload) Hans).
  - exact (H (Patch resource payload) Hans).
  - exact (H (Post resource payload) Hans).
Qed.

(** X12: the transparent re-login.  On an expired session, when the login is
    answered with an accepted status and a body and the request itself with
    an accepted status, a facade call returns the body of its answer, having
    sent exactly two requests: the login, then its own request through the
    new instance, which carries the new session's cookie. *)
Theorem transparent_relogin f s a rest st b sid timeout st2 b2 :
  isAfter (now (world s)) (endSessionTime (client s)) = true ->
  logins (world s) = a :: rest ->
  outcome a = Reply st b ->
  validateStatus st = true ->
  get_prop b "SessionId" = Returned sid ->
  get_prop b "SessionTimeout" = Returned timeout ->
  let cfg := normalized (config (client s)) (as_arg (config (client s))) in
  let i := {| baseURL := baseURL (axios_create cfg);
              Cookie := Some ("B1SESSION=" ++ js_to_string sid
                              ++ ";CompanyDB=" ++ company cfg) |} in
  let s1 := snd (refreshSession s) in
  answer (facade_request f i) (world s1) = Reply st2 b2 ->
  validateStatus st2 = true ->
  fst (run f s) = Returned b2 /\
  sent (world (snd (run f s))) =
    (sent (world s) ++ [login_request cfg; facade_request f i])%list /\
  option_map Cookie (instance (client (snd (run f s)))) = Some (Cookie i).
Proof.
  intros Ha Hl Ho Hv Hsid Ht cfg i s1 Hans Hv2.
  assert (Hr : refreshSession s =
               (Returned tt,
                {| client := logged_in cfg sid timeout (now (world s) + delay a);
                   world := {| now := now (world s) + delay a;
                               logins := rest;
                               replies := replies (world s);
                               sent := (sent (world s) ++ [login_request cfg])%list |} |})).
  { rewrite refreshSession_eq, Ha.
    now apply createSession_succeeds with (st := st) (b := b). }
  subst s1. rewrite Hr in Hans. cbn [snd] in Hans.
  rewrite run_eq, Hr. cbn [client logged_in instance]. cbv zeta. fold i.
  unfold answer in Hans. rewrite Hans, settle_reply by exact Hv2.
  cbn [fst snd body served client world instance logged_in].
  rewrite serve_sent. cbn [sent]. rewrite <- app_assoc.
  repeat split.
Qed.

(** X13: a failed re-login is tried again by the next call.  When the login
    of an expired session fails and the clock has not gone back, the client
    is left with the old, expired session fields and a new instance without
    cookie, so the next session check logs in again. *)
Theorem failed_relogin_retried (s : State) :
  isAfter (now (world s)) (endSessionTime (client s)) = true ->
  failing (next_login (world s)) = true ->
  (forall a rest, logins (world s) = a :: rest -> 0 <= delay a) ->
  let s' := snd (refreshSession s) in
  session_fields (client s') = session_fields (client s) /\
  option_map Cookie (instance (client s')) = Some None /\
  isAfter (now (world s')) (endSessionTime (client s')) = true.
Proof.
  intros Ha Hf Hd s'. subst s'. rewrite refreshSession_eq, Ha.
  rewrite createSession_failing by exact Hf. cbv zeta. cbn [snd client world].
  split; [reflexivity|]. split; [reflexivity|].
  cbn [logging_in endSessionTime]. unfold serve.
  rewrite is_login_login_request.
  unfold isAfter in *. destruct (dayjs_of (endSessionTime (client s))) as [e|];
    [|discriminate].
  apply Z.ltb_lt in Ha. apply Z.ltb_lt.
  destruct (logins (world s)) as [|a rest] eqn:Hl; cbn [snd now]; [exact Ha|].
  specialize (Hd a rest eq_refl). lia.
Qed.

(** X14: when the first response has a [value] that is not an array, or no
    [value] at all, and no next link, [find] returns an array of one element,
    that value ([undefined] when it is missing). *)
Theorem find_non_array_value q o s s0 b s1 v :
  refreshSession s = (Returned tt, s0) ->
  query q JUndefined s0 = (Returned b, s1) ->
  get_prop b "value" = Returned v ->
  (forall l, v <> JArr l) ->
  last_page b ->
  find q o s = Some (Returned [v], s1).
Proof.
  intros Hr Hq Hv Hna Hlast.
  rewrite (find_first_then_follows q o s s0 b s1 v [] b s1 Hr Hq Hv (follows_nil _ b s1)).
  rewrite find_while_last_page by exact Hlast.
  destruct v; try reflexivity. now destruct (Hna items).
Qed.

(** X15: when the first response has a [null] (or missing) body, [find]
    raises, with an error that is not the transport's, after the one page
    request. *)
Theorem find_null_body q o s s0 b s1 :
  refreshSession s = (Returned tt, s0) ->
  query q JUndefined s0 = (Returned b, s1) ->
  b = JNull \/ b = JUndefined ->
  exists e, find q o s = Some (Raised e, s1) /\
            response e = None /\ request e = None.
Proof.
  intros Hr Hq Hb. unfold find. rewrite find_fuel_eq, Hr, next_page_eq, Hq.
  destruct Hb as [-> | ->]; cbn [get_prop]; eexists; repeat split.
Qed.


(** ** The further properties on the scenario *)

Lemma createSession_defaults_witness :
  option_map baseURL (instance (client (snd (createSession empty_config (fresh [])))))
  = Some "http://localhost:80/b1s/v2/".
Proof.
  exact (proj2 (proj2 (proj2
    (createSession_defaults empty_config (world (fresh [])) eq_refl eq_refl)))).
Defined.

Lemma session_cookie_on_requests_witness :
  map (fun r => Cookie (via r))
      (sent (world (snd (run (Get (JStr "Orders(10)") JUndefined) no_content))))
  = [Some "B1SESSION=s1;CompanyDB=SBODEMO"].
Proof.
  exact (f_equal (map (fun r => Cookie (via r)))
           (session_cookie_on_requests sap_config before_login (login_answer "s1" 30) []
              200 _ (JStr "s1") (JNum 30) (Get (JStr "Orders(10)") JUndefined)
              (world no_content) eq_refl eq_refl eq_refl eq_refl eq_refl eq_refl)).
Defined.

Lemma calls_before_session_witness :
  refreshSession (fresh []) = (Returned tt, fresh []) /\
  fst (get (JStr "Orders") JUndefined (fresh [])) =
    Returned (tagged (JStr "Cannot read properties of null (reading 'get')")) /\
  sent (world (snd (get (JStr "Orders") JUndefined (fresh [])))) = [].
Proof.
  destruct (calls_before_session (fresh []) (JStr "Orders") JUndefined JNull JNull
              eq_refl) as (H1 & H2 & _).
  split; [exact H1|]. rewrite H2. split; reflexivity.
Defined.

Lemma login_without_fields_witness :
  fst (createSession sap_config login_405) = Returned tt /\
  endSessionTime (client (snd (createSession sap_config login_405))) = Some InvalidDate.
Proof.
  destruct (login_without_fields sap_config login_405 _ [] 405 (JStr "")
              eq_refl eq_refl eq_refl eq_refl eq_refl) as (H1 & _ & H3 & _).
  split; [exact H1|exact H3].
Defined.

Lemma login_null_body_witness :
  option_map Cookie (instance (client (snd (createSession sap_config login_null))))
  = Some None.
Proof.
  exact (proj2 (proj2 (login_null_body sap_config login_null _ [] 200 JNull
                         eq_refl eq_refl eq_refl (or_introl eq_refl)))).
Defined.

Lemma relogin_window_witness :
  let c := client (snd (createSession sap_config login_one_minute)) in
  refreshSession {| client := c; world := world (at_instant T0 [] []) |}
  = (Returned tt, {| client := c; world := world (at_instant T0 [] []) |}) /\
  List.length
    (sent (world (snd (refreshSession
                         {| client := c; world := world (at_instant (T0 + 1) [] []) |}))))
  = 1%nat.
Proof.
  assert (Hrange : - MAX_TIME_VALUE <= T0 - 250 + 250 + (1 - 1) * MILLISECONDS_A_MINUTE
                   <= MAX_TIME_VALUE).
  { vm_compute. split; discriminate. }
  split.
  - apply (proj1 (relogin_window sap_config login_one_minute (login_answer "s1" 1) []
                    200 _ 1 (world (at_instant T0 [] []))
                    eq_refl eq_refl eq_refl eq_refl) Hrange).
    vm_compute. discriminate.
  - rewrite (proj2 (proj1 (relogin_window sap_config login_one_minute
                             (login_answer "s1" 1) [] 200 _ 1
                             (world (at_instant (T0 + 1) [] []))
                             eq_refl eq_refl eq_refl eq_refl) Hrange) eq_refl).
    reflexivity.
Defined.

Lemma relogin_normalizes_host_witness :
  host (config (client double_slash_expired)) = "https://sap.example/" /\
  host (config (client (snd (refreshSession double_slash_expired))))
  = "https://sap.example".
Proof.
  split; [reflexivity|].
  exact (proj1 (proj1 (relogin_normalizes_host double_slash_expired eq_refl)
                      "https://sap.example" eq_refl)).
Defined.

Lemma trailing_slash_irrelevant_witness :
  createSession (with_arg_host sap_config "https://sap.example/") before_login =
  createSession (with_arg_host sap_config "https://sap.example") before_login.
Proof.
  apply (trailing_slash_irrelevant sap_config "https://sap.example" before_login).
  apply no_trailing_slash. reflexivity.
Defined.

Lemma query_passthrough_witness :
  fst (query (JStr "Orders(10)/Cancel") JUndefined method_not_allowed)
  = Returned (JStr "").
Proof.
  erewrite (query_passthrough (JStr "Orders(10)/Cancel") JUndefined method_not_allowed);
    [reflexivity|reflexivity|reflexivity|reflexivity|reflexivity|right; reflexivity].
Defined.

Lemma mutating_verbs_send_payload_witness :
  fst (patch (JStr "Orders(10)") (JObj [("Comments", JStr "ok")]) no_content)
  = Returned (JStr "").
Proof.
  destruct (mutating_verbs_send_payload (JStr "Orders(10)")
              (JObj [("Comments", JStr "ok")]) no_content
              {| baseURL := "https://sap.example:50000/b1s/v2/";
                 Cookie := Some "B1SESSION=s1;CompanyDB=SBODEMO" |}
              204 (JStr "") eq_refl eq_refl eq_refl) as (_ & H & _).
  now rewrite (H eq_refl).
Defined.

Lemma transparent_relogin_witness :
  fst (get (JStr "Orders") JUndefined expired_served) = Returned (JObj [("value", JArr [JNum 1])]) /\
  map (fun r => (method r, Cookie (via r)))
      (sent (world (snd (get (JStr "Orders") JUndefined expired_served))))
  = [(POST, None); (GET, Some "B1SESSION=s2;CompanyDB=SBODEMO")].
Proof.
  edestruct (transparent_relogin (Get (JStr "Orders") JUndefined) expired_served
               (login_answer "s2" 30) [] 200
               (JObj [("SessionId", JStr "s2"); ("SessionTimeout", JNum 30)])
               (JStr "s2") (JNum 30) 200
               (JObj [("value", JArr [JNum 1])]))
    as (H1 & H2 & _);
    [vm_compute; reflexivity|reflexivity|reflexivity|reflexivity|reflexivity|
     reflexivity|vm_compute; reflexivity|reflexivity|].
  apply (f_equal (map (fun r => (method r, Cookie (via r))))) in H2.
  vm_compute in H1, H2. vm_compute. split; [exact H1|exact H2].
Defined.

Lemma failed_relogin_retried_witness :
  isAfter (now (world (snd (refreshSession expired_refused))))
          (endSessionTime (client (snd (refreshSession expired_refused)))) = true.
Proof.
  refine (proj2 (proj2 (failed_relogin_retried expired_refused eq_refl eq_refl _))).
  intros a rest H. injection H as <- _. vm_compute. discriminate.
Defined.

Lemma find_non_array_value_witness :
  option_map fst (find (JStr "Orders(10)") JUndefined single_entity)
  = Some (Returned [JUndefined]).
Proof.
  erewrite (find_non_array_value (JStr "Orders(10)") JUndefined single_entity);
    [reflexivity|reflexivity|vm_compute; reflexivity|reflexivity|discriminate|].
  exists JUndefined. split; reflexivity.
Defined.

Lemma find_null_body_witness :
  exists e s', find (JStr "Orders") JUndefined null_body = Some (Raised e, s') /\
               response e = None.
Proof.
  edestruct (find_null_body (JStr "Orders") JUndefined null_body) as (e & H1 & H2 & _);
    [reflexivity|vm_compute; reflexivity|left; reflexivity|].
  eexists. eexists. split; [exact H1|exact H2].
Defined.

